(** * ValuTTS speaker-encoder training driver: model and verified properties

    Shallow embedding of [TTS/bin/train_encoder.py] (functions [train] and the
    restore block of [main]) and of [TTS/encoder/configs/base_encoder_config.py]
    (class [BaseEncoderConfig]).

    Python [int] is [Z]; Python [float] (and [loss.item()]) is the kernel's
    binary64 [float]; a [dict] is a [gmap] with string keys; a raised exception
    is the [Raise] branch of [result]. *)

From Stdlib Require Import ZArith List Lia Floats Uint63 Bool.
From stdpp Require Import gmap strings list fin_maps.
Import ListNotations.
Local Open Scope Z_scope.
Set Warnings "-inexact-float".

(** ** Exceptions and the error monad *)

Inductive exn : Type :=
| KeyError (key : string)
| RuntimeError
| AssertionError (msg : string)
| AttributeError (field : string)
| ZeroDivisionError
| OtherError (what : string).

Inductive result (A : Type) : Type :=
| Ok (a : A)
| Raise (e : exn).
Arguments Ok {A} a.
Arguments Raise {A} e.

Definition bind {A B : Type} (r : result A) (k : A -> result B) : result B :=
  match r with
  | Ok a => k a
  | Raise e => Raise e
  end.

Notation "'let*' x ':=' r 'in' k" := (bind r (fun x => k))
  (at level 10, x name, r at level 100, k at level 200, only parsing).
Notation "'let*' ' p ':=' r 'in' k" := (bind r (fun p => k))
  (at level 10, p pattern, r at level 100, k at level 200, only parsing).

(** ** Batch regrouping (train_encoder.py, lines 84-85)

    [x.view(U, C)] cuts the flat batch into [U] rows of [C] entries,
    [torch.transpose(_, 0, 1)] swaps the two axes and [.reshape(x.shape)]
    flattens the result back. *)

Module Regroup.
Section Grid.
Context {A : Type}.

(** the rows of a [rows] x [cols] view of a flat sequence *)
Fixpoint rows_of (rows cols : nat) (l : list A) : list (list A) :=
  match rows with
  | O => []
  | S r => take cols l :: rows_of r cols (drop cols l)
  end.

(** [torch.transpose(_, 0, 1)] of a grid with [cols] columns *)
Fixpoint transpose (cols : nat) (m : list (list A)) : list (list A) :=
  match m with
  | [] => replicate cols []
  | r :: m' => zip_with cons r (transpose cols m')
  end.

(** a grid of [rows] rows with [cols] entries each *)
Definition rect (rows cols : nat) (m : list (list A)) : Prop :=
  length m = rows /\ Forall (fun r => length r = cols) m.

(** [x.view(U, C)]: the sizes must be non-negative and multiply to the
    number of elements.  A negative size other than -1 is rejected by
    [view]; -1 (an inferred size) is rejected on line 85, whose view already
    carries an inferred third size; so lines 84-85 together raise for every
    negative size. *)
Definition view (U C : Z) (l : list A) : result (list (list A)) :=
  if decide (0 <= U /\ 0 <= C /\ Z.of_nat (length l) = U * C)
  then Ok (rows_of (Z.to_nat U) (Z.to_nat C) l)
  else Raise RuntimeError.

(** [torch.transpose(x.view(U, C), 0, 1).reshape(x.shape)] *)
Definition regroup (U C : Z) (l : list A) : result (list A) :=
  let* m := view U C l in
  Ok (concat (transpose (Z.to_nat C) m)).

(** the regrouped sequence, when the view is accepted *)
Definition regrouped (U C : Z) (l : list A) : list A :=
  concat (transpose (Z.to_nat C) (rows_of (Z.to_nat U) (Z.to_nat C) l)).

(** [inputs.view(U, C, -1)]: one cell per feature row; the inferred last
    size is ambiguous, and rejected, for an empty batch. *)
Definition regroup_rows (U C : Z) (l : list A) : result (list A) :=
  if decide (U * C = 0) then Raise RuntimeError else regroup U C l.

End Grid.
End Regroup.

(** ** Python arithmetic used by the driver *)

(** [a % b] on integers: the sign follows the divisor, as [Z.modulo]; a zero
    divisor raises. *)
Definition py_mod (a b : Z) : result Z :=
  if decide (b = 0) then Raise ZeroDivisionError else Ok (a mod b).

(** [float(n)] for the integers the driver converts (worker counts). *)
Definition Z2F (n : Z) : float :=
  if decide (0 <= n) then PrimFloat.of_uint63 (Uint63.of_Z n)
  else PrimFloat.opp (PrimFloat.of_uint63 (Uint63.of_Z (- n))).

(** [a / b] on integers is true division; for operands below [2^53], as the
    worker counts are, it is the float quotient of the converted operands. *)
Definition true_div (a b : Z) : float := (Z2F a / Z2F b)%float.

(** [x != 0] on floats: true for NaN, false for both zeros. *)
Definition nonzero (x : float) : bool := negb (PrimFloat.eqb x 0%float).

(** [a // b] on integers: floor division, as [Z.div]; a zero divisor raises. *)
Definition py_floordiv (a b : Z) : result Z :=
  if decide (b = 0) then Raise ZeroDivisionError else Ok (a / b).

(** ** Configuration schema (base_encoder_config.py) *)

Module Config.

(** values stored in the [model_params] dict *)
Inductive pyval : Type :=
| PInt (z : Z)
| PStr (s : string)
| PBool (b : bool).

(** [v == n] for an integer [n]; [bool] is a subclass of [int]. *)
Definition py_eq_int (v : pyval) (n : Z) : bool :=
  match v with
  | PInt z => bool_decide (z = n)
  | PBool b => bool_decide ((if b then 1 else 0) = n)
  | PStr _ => false
  end.

(** [BaseAudioConfig] is declared in [TTS.config.shared_configs]; only
    [num_mels] is read here. *)
Record BaseAudioConfig : Type := { num_mels : Z }.

(** A field declared [= MISSING] holds [None] until it is set.  The fields
    [datasets] and [audio_augmentation] are not read by the properties below
    and are left out. *)
Record BaseEncoderConfig : Type := {
  model : option string;
  audio : BaseAudioConfig;
  model_params : gmap string pyval;
  max_train_step : Z;
  loss : string;
  grad_clip : float;
  lr : float;
  lr_decay : bool;
  warmup_steps : Z;
  wd : float;
  tb_model_param_stats : bool;
  steps_plot_stats : Z;
  checkpoint : bool;
  save_step : Z;
  print_step : Z;
  num_classes_in_batch : option Z;
  num_utter_per_class : option Z;
  num_loader_workers : option Z;
  skip_classes : bool;
  voice_len : float
}.

Definition default_model_params : gmap string pyval :=
  <["model_name" := PStr "lstm"]>
  (<["input_dim" := PInt 80]>
  (<["proj_dim" := PInt 256]>
  (<["lstm_dim" := PInt 768]>
  (<["num_lstm_layers" := PInt 3]>
  (<["use_lstm_with_projection" := PBool true]> ∅))))).

(** the declared defaults, for a given default audio configuration *)
Definition defaults (a : BaseAudioConfig) : BaseEncoderConfig := {|
  model := None;
  audio := a;
  model_params := default_model_params;
  max_train_step := 1000000;
  loss := "angleproto";
  grad_clip := 3.0%float;
  lr := 0.0001%float;
  lr_decay := false;
  warmup_steps := 4000;
  wd := 1e-6%float;
  tb_model_param_stats := false;
  steps_plot_stats := 10;
  checkpoint := true;
  save_step := 1000;
  print_step := 20;
  num_classes_in_batch := None;
  num_utter_per_class := None;
  num_loader_workers := None;
  skip_classes := false;
  voice_len := 1.6%float
|}.

(** Modelled from the spec: coqpit's [MISSING] sentinel, whose class is not
    part of this repository.  A mandatory field has no default and its
    absence is a configuration error: reading a field that still holds
    [MISSING] raises instead of yielding a value. *)
Definition getattr {A : Type} (name : string) (v : option A) : result A :=
  match v with
  | Some a => Ok a
  | None => Raise (AttributeError name)
  end.

Definition dimension_message : string :=
  " [!] model input dimendion must be equal to melspectrogram dimension.".

Section CheckValues.
(** [super().check_values()], declared in [TTS.config.shared_configs] *)
Variable super_check_values : BaseEncoderConfig -> result unit.

(** [asdict(self)] reads every field of the dataclass, in declaration
    order; the fields that can be unset are the three mandatory ones. *)
Definition asdict (c : BaseEncoderConfig) : result BaseEncoderConfig :=
  let* _ := getattr "num_classes_in_batch" (num_classes_in_batch c) in
  let* _ := getattr "num_utter_per_class" (num_utter_per_class c) in
  let* _ := getattr "num_loader_workers" (num_loader_workers c) in
  Ok c.

Definition check_values (c : BaseEncoderConfig) : result unit :=
  let* _ := super_check_values c in
  let* d := asdict c in
  let* input_dim :=
    match model_params d !! "input_dim" with
    | Some v => Ok v
    | None => Raise (KeyError "input_dim")
    end in
  if py_eq_int input_dim (num_mels (audio c)) then Ok tt
  else Raise (AssertionError dimension_message).
End CheckValues.

End Config.

(** ** The training loop (train_encoder.py, [train]) *)

Module Train.
Import Config.

(** [avg_loss] update, line 128 *)
Definition smooth_loss (avg_loss loss : float) : float :=
  if nonzero avg_loss then (0.01 * loss + 0.99 * avg_loss)%float else loss.

(** line 129 *)
Definition effective_workers (configured : Z) : Z :=
  if decide (configured > 0) then configured else 1.

(** [avg_loader_time] update, lines 130-134 *)
Definition smooth_loader_time (num_loader_workers : Z)
    (avg_loader_time loader_time : float) : float :=
  if nonzero avg_loader_time
  then (true_div 1 num_loader_workers * loader_time
        + true_div (num_loader_workers - 1) num_loader_workers * avg_loader_time)%float
  else loader_time.

(** [outputs.view(c.num_classes_in_batch,
    outputs.shape[0] // c.num_classes_in_batch, -1)], the first argument of
    the criterion on line 119: one cell per output row; as on line 85 the
    inferred last size is rejected when the two given sizes multiply to
    zero. *)
Definition group_outputs {A : Type} (C : Z) (outputs : list A)
    : result (list (list A)) :=
  let* per_class := py_floordiv (Z.of_nat (length outputs)) C in
  if decide (C * per_class = 0) then Raise RuntimeError
  else Regroup.view C per_class outputs.

Section Loop.
Context {Feature Label Model : Type}.

(** The collaborators of one step.  [Model] stands for the live model,
    criterion, optimizer and scheduler. [scheduler_step] is
    [scheduler.step()]; [train_batch] is lines 108-122 (zero the gradients,
    forward pass, criterion, backward pass, gradient clipping, optimizer
    step) and yields the updated objects with [loss.item()] and the
    gradient norm. *)
Variable scheduler_step : Model -> Model.
Variable train_batch :
  Model -> list Feature -> list Label -> Model * float * float.

Variable c : BaseEncoderConfig.

(** one item of the data loader, with the two wall-clock durations
    measured around it *)
Record item : Type := {
  inputs : list Feature;
  labels : list Label;
  loader_time : float;
  step_time : float
}.

(** what the loop emits: dashboard statistics, console lines and
    checkpoint files *)
Inductive effect : Type :=
| TrainStats (step : Z) (avg_loss : float) (avg_loader_time : float)
| Printed (step : Z) (loss avg_loss : float)
| Saved (step : Z) (model_loss : float) (m : Model).

(** the local variables of [train]; [effects] is newest first and
    [batches] counts the loop bodies entered *)
Record state : Type := {
  model : Model;
  global_step : Z;
  epoch_time : float;
  best_loss : float;
  avg_loss : float;
  avg_loss_all : float;
  avg_loader_time : float;
  effects : list effect;
  batches : nat
}.

(** Modelled from the spec: [save_best_model] of
    [TTS.encoder.utils.generic_utils], which is not among the sources.
    It persists a checkpoint if the current smoothed loss is the best
    (lowest) seen so far and returns the updated best-loss watermark. *)
Definition save_best_model (m : Model) (model_loss best_loss : float)
    (current_step : Z) : list effect * float :=
  if PrimFloat.ltb model_loss best_loss
  then ([Saved current_step model_loss m], model_loss)
  else ([], best_loss).

(** lines 69-77 *)
Definition init (m : Model) (global_step : Z) : state := {|
  model := m;
  global_step := global_step;
  epoch_time := 0%float;
  best_loss := infinity;
  avg_loss := 0%float;
  avg_loss_all := 0%float;
  avg_loader_time := 0%float;
  effects := [];
  batches := O
|}.

(** the loop body, lines 79-169; the boolean is [true] on [break] *)
Definition train_step (st : state) (data : item) : result (state * bool) :=
  let* U := getattr "num_utter_per_class" (num_utter_per_class c) in
  let* C := getattr "num_classes_in_batch" (num_classes_in_batch c) in
  let* labels := Regroup.regroup U C (labels data) in
  let* inputs := Regroup.regroup_rows U C (inputs data) in
  let global_step := global_step st + 1 in
  let m := if lr_decay c then scheduler_step (model st) else model st in
  let '(m, loss, grad_norm) := train_batch m inputs labels in
  let epoch_time := (epoch_time st + step_time data)%float in
  let avg_loss := smooth_loss (avg_loss st) loss in
  let* W := getattr "num_loader_workers" (num_loader_workers c) in
  let num_loader_workers := effective_workers W in
  let avg_loader_time :=
    smooth_loader_time num_loader_workers (avg_loader_time st) (loader_time data) in
  let* r := py_mod global_step (steps_plot_stats c) in
  let plotted :=
    if decide (r = 0) then [TrainStats global_step avg_loss avg_loader_time] else [] in
  let* r := py_mod global_step (print_step c) in
  let printed :=
    if decide (r = 0) then [Printed global_step loss avg_loss] else [] in
  let avg_loss_all := (avg_loss_all st + avg_loss)%float in
  let* trigger :=
    if decide (global_step >= max_train_step c) then Ok true
    else let* r := py_mod global_step (save_step c) in Ok (bool_decide (r = 0)) in
  if trigger then
    let '(saved, best) := save_best_model m avg_loss (best_loss st) global_step in
    Ok ({| model := m; global_step := global_step; epoch_time := epoch_time;
           best_loss := best; avg_loss := avg_loss; avg_loss_all := 0%float;
           avg_loader_time := avg_loader_time;
           effects := saved ++ printed ++ plotted ++ effects st;
           batches := S (batches st) |},
        bool_decide (global_step >= max_train_step c))
  else
    Ok ({| model := m; global_step := global_step; epoch_time := epoch_time;
           best_loss := best_loss st; avg_loss := avg_loss;
           avg_loss_all := avg_loss_all;
           avg_loader_time := avg_loader_time;
           effects := printed ++ plotted ++ effects st;
           batches := S (batches st) |},
        false).

(** [for _, data in enumerate(data_loader)]: one pass over the loader *)
Fixpoint loop (st : state) (data_loader : list item) : result state :=
  match data_loader with
  | [] => Ok st
  | data :: rest =>
      let* '(st', stop) := train_step st data in
      if (stop : bool) then Ok st' else loop st' rest
  end.

(** the whole call, keeping the final local state *)
Definition run (m : Model) (data_loader : list item) (global_step : Z)
    : result state :=
  loop (init m global_step) data_loader.

(** [return avg_loss, global_step] *)
Definition returned (st : state) : float * Z := (avg_loss st, global_step st).

(** [train(model, optimizer, scheduler, criterion, data_loader, global_step)] *)
Definition train (m : Model) (data_loader : list item) (global_step : Z)
    : result (float * Z) :=
  let* st := run m data_loader global_step in
  Ok (returned st).

(** the checkpoints written, oldest first, as (step, loss) *)
Definition checkpoints (st : state) : list (Z * float) :=
  rev (omap (fun e => match e with
                      | Saved s l _ => Some (s, l)
                      | _ => None
                      end) (effects st)).

(** *** Vocabulary of the loop properties *)

(** the configuration lets a step run: the mandatory fields are set to
    positive batch sizes and no cadence is zero *)
Definition loop_ready (U C W : Z) : Prop :=
  num_utter_per_class c = Some U /\ num_classes_in_batch c = Some C /\
  num_loader_workers c = Some W /\ 0 < U /\ 0 < C /\
  steps_plot_stats c <> 0 /\ print_step c <> 0 /\ save_step c <> 0.

(** the batch has [num_classes_in_batch * num_utter_per_class] features
    and as many labels *)
Definition well_sized (U C : Z) (data : item) : Prop :=
  Z.of_nat (length (inputs data)) = C * U /\
  Z.of_nat (length (labels data)) = C * U.

(** the condition of line 162 *)
Definition triggered (global_step : Z) : bool :=
  bool_decide (global_step >= max_train_step c
               \/ global_step mod save_step c = 0).

(** [loss.item()] of the step taken from [st] on [data] *)
Definition loss_item (U C : Z) (st : state) (data : item) : float :=
  (train_batch (if lr_decay c then scheduler_step (model st) else model st)
     (Regroup.regrouped U C (inputs data))
     (Regroup.regrouped U C (labels data))).1.2.

(** batches a loop entered at [global_step] can take before line 166
    breaks: the test follows the step, so at least one *)
Definition budget (global_step : Z) : nat :=
  Z.to_nat (Z.max 1 (max_train_step c - global_step)).

(** the steps on which a progress line was printed (line 152), oldest
    first *)
Definition printed_steps (st : state) : list Z :=
  rev (omap (fun e => match e with
                      | Printed s _ _ => Some s
                      | _ => None
                      end) (effects st)).

(** the steps on which statistics went to the dashboard (line 137),
    oldest first *)
Definition plotted_steps (st : state) : list Z :=
  rev (omap (fun e => match e with
                      | TrainStats s _ _ => Some s
                      | _ => None
                      end) (effects st)).
End Loop.
End Train.

(** ** Restoring from a checkpoint and starting the loop (train_encoder.py, [main]) *)

Module Main.
Import Config.

(** a parameter tensor: its shape and its entries *)
Record tensor : Type := { shape : list Z; entries : list float }.

Definition same_shape (a b : tensor) : bool := bool_decide (shape a = shape b).

(** the value a module parameter [own], named [k], holds after loading
    [state_dict]: the stored one when the name is present with the same
    shape, its current one otherwise *)
Definition copy_param (state_dict : gmap string tensor) (k : string)
    (own : tensor) : tensor :=
  match state_dict !! k with
  | Some v => if same_shape v own then v else own
  | None => own
  end.

Definition loadable (state_dict : gmap string tensor) (k : string)
    (own : tensor) : bool :=
  match state_dict !! k with
  | Some v => same_shape v own
  | None => false
  end.

(** [module.load_state_dict(state_dict)] of PyTorch, strict: every
    parameter whose name and shape match is copied in place; a missing key,
    an unexpected key or a shape mismatch makes the call raise
    [RuntimeError] once the copying is done. *)
Definition load_state_dict (own state_dict : gmap string tensor)
    : gmap string tensor * option exn :=
  (map_imap (fun k t => Some (copy_param state_dict k t)) own,
   if bool_decide (dom own = dom state_dict)
      && bool_decide (map_Forall (fun k t => loadable state_dict k t = true) own)
   then None else Some RuntimeError).

Definition loadable_in (model_dict : gmap string tensor)
    (kv : string * tensor) : bool :=
  match model_dict !! kv.1 with
  | Some own => same_shape kv.2 own
  | None => false
  end.

(** Modelled from the spec: [set_init_dict] of [TTS.utils.generic_utils],
    which is not among the sources.  The partial load copies only the
    checkpoint parameters that match a model parameter by name and shape,
    and leaves the rest of [model_dict] as it is. *)
Definition set_init_dict (model_dict checkpoint_state : gmap string tensor)
    (c : BaseEncoderConfig) : gmap string tensor :=
  let pretrained_dict :=
    filter (fun kv => loadable_in model_dict kv = true) checkpoint_state in
  pretrained_dict ∪ model_dict.

(** [state_dict] has exactly the parameter names of the module [own],
    each with the shape the module has *)
Definition fits (own state_dict : gmap string tensor) : Prop :=
  dom own = dom state_dict /\
  forall k t v, own !! k = Some t -> state_dict !! k = Some v ->
                shape v = shape t.

(** the live model and criterion, as their state dicts *)
Record modules : Type := {
  model_state : gmap string tensor;
  criterion_state : gmap string tensor
}.

(** the dict read from the checkpoint file; a key may be absent *)
Record checkpoint : Type := {
  ck_model : option (gmap string tensor);
  ck_criterion : option (gmap string tensor);
  ck_step : option Z
}.

(** one entry of [optimizer.param_groups] *)
Record param_group : Type := { group_lr : float; group_weight_decay : float }.

(** [d[key]] *)
Definition subscript {A : Type} (key : string) (v : option A) : result A :=
  match v with
  | Some a => Ok a
  | None => Raise (KeyError key)
  end.

(** the [try] body, lines 206-209: the objects as the body leaves them and
    the exception that interrupted it, if any *)
Definition strict_load (ms : modules) (ck : checkpoint) : modules * option exn :=
  match ck_model ck with
  | None => (ms, Some (KeyError "model"))
  | Some sd =>
      let '(m, err) := load_state_dict (model_state ms) sd in
      let ms' := {| model_state := m; criterion_state := criterion_state ms |} in
      match err with
      | Some e => (ms', Some e)
      | None =>
          match ck_criterion ck with
          | None => (ms', None)
          | Some csd =>
              let '(cr, err) := load_state_dict (criterion_state ms) csd in
              ({| model_state := m; criterion_state := cr |}, err)
          end
      end
  end.

(** [except (KeyError, RuntimeError)] *)
Definition caught (e : exn) : bool :=
  match e with
  | KeyError _ | RuntimeError => true
  | _ => false
  end.

(** the handler, lines 212-216 *)
Definition partial_load (c : BaseEncoderConfig) (ms : modules) (ck : checkpoint)
    : result modules :=
  let model_dict := model_state ms in
  let* sd := subscript "model" (ck_model ck) in
  let model_dict := set_init_dict model_dict sd c in
  let '(m, err) := load_state_dict (model_state ms) model_dict in
  match err with
  | Some e => Raise e
  | None => Ok {| model_state := m; criterion_state := criterion_state ms |}
  end.

(** lines 217-218 *)
Definition reset_lr (c : BaseEncoderConfig) (param_groups : list param_group)
    : list param_group :=
  map (fun group => {| group_lr := lr c;
                       group_weight_decay := group_weight_decay group |})
      param_groups.

(** lines 205-221, once the checkpoint is read: the restored objects, the
    optimizer's groups and [args.restore_step] *)
Definition restore (c : BaseEncoderConfig) (ms : modules)
    (param_groups : list param_group) (ck : checkpoint)
    : result (modules * list param_group * Z) :=
  let '(ms1, err) := strict_load ms ck in
  let* ms2 :=
    match err with
    | None => Ok ms1
    | Some e => if caught e then partial_load c ms1 ck else Raise e
    end in
  let param_groups := reset_lr c param_groups in
  let* step := subscript "step" (ck_step ck) in
  Ok (ms2, param_groups, step).

(** truth value of [args.restore_path] *)
Definition truthy (path : option string) : bool :=
  match path with
  | Some p => negb (String.eqb p "")
  | None => false
  end.

Inductive criterion_kind : Type := GE2ELoss | AngleProtoLoss | SoftmaxAngleProtoLoss.

(** lines 190-201 *)
Definition select_criterion (c : BaseEncoderConfig) : result criterion_kind :=
  if String.eqb (loss c) "ge2e" then Ok GE2ELoss
  else if String.eqb (loss c) "angleproto" then Ok AngleProtoLoss
  else if String.eqb (loss c) "softmaxproto" then Ok SoftmaxAngleProtoLoss
  else Raise (OtherError ("The " ++ loss c ++ "  not is a loss supported")).

Section Driver.
Context {Feature Label Model : Type}.
Variable scheduler_step : Model -> Model.
Variable train_batch :
  Model -> list Feature -> list Label -> Model * float * float.

(** [load_fsspec], the freshly built model and criterion, the loader of
    [setup_loader], and the live objects the loop runs on: the modules,
    the optimizer and, when [lr_decay] is set, the [NoamLR] scheduler
    built with the given [last_epoch] *)
Variable load_fsspec : string -> result checkpoint.
Variable fresh_model : gmap string tensor.
Variable fresh_criterion : criterion_kind -> gmap string tensor.
Variable train_data_loader : list (@Train.item Feature Label).
Variable live : modules -> list param_group -> option Z -> Model.

(** lines 203-223 *)
Definition restore_or_fresh (c : BaseEncoderConfig) (restore_path : option string)
    (ms : modules) (param_groups : list param_group)
    : result (modules * list param_group * Z) :=
  if truthy restore_path then
    let* checkpoint := load_fsspec (default "" restore_path) in
    restore c ms param_groups checkpoint
  else Ok (ms, param_groups, 0).

Definition main (c : BaseEncoderConfig) (restore_path : option string)
    : result (float * Z) :=
  let optimizer := [ {| group_lr := lr c; group_weight_decay := wd c |} ] in
  let* kind := select_criterion c in
  let ms := {| model_state := fresh_model;
               criterion_state := fresh_criterion kind |} in
  let* '(ms, optimizer, restore_step) :=
    restore_or_fresh c restore_path ms optimizer in
  let scheduler := if lr_decay c then Some (restore_step - 1) else None in
  let global_step := restore_step in
  (* lines 196-199 copy the class map next to the checkpoints; lines
     230-235 count the parameters and move the objects to the GPU *)
  Train.train scheduler_step train_batch c
    (live ms optimizer scheduler) train_data_loader global_step.
End Driver.
End Main.

(** whether a call returned *)
Definition is_ok {A : Type} (r : result A) : bool :=
  match r with Ok _ => true | Raise _ => false end.

(** ** Building the data loader (train_encoder.py, [setup_loader]) *)

Module Loader.
Import Config.

Inductive split : Type := meta_data_train | meta_data_eval.

(** the arguments [EncoderDataset] is built with; [augmentation_config] is
    [c.audio_augmentation] or [None] *)
Record dataset_args : Type := {
  meta_data : split;
  ds_voice_len : float;
  ds_num_utter_per_class : Z;
  ds_num_classes_in_batch : Z;
  ds_verbose : bool;
  ds_augmentation_config : bool;
  ds_use_torch_spec : pyval
}.

(** the arguments [PerfectBatchSampler] is built with, after the items and
    the class list of the dataset *)
Record sampler_args : Type := {
  batch_size : Z;
  sampler_num_classes_in_batch : Z;
  num_gpus : Z;
  shuffle : bool;
  drop_last : bool
}.

(** the arguments [DataLoader] is built with; [collate_fn] is the
    dataset's *)
Record loader_args : Type := {
  dataset : dataset_args;
  num_workers : Z;
  batch_sampler : sampler_args
}.

(** reading a local variable that no executed statement has assigned *)
Definition UnboundLocalError (name : string) : exn :=
  OtherError ("UnboundLocalError: " ++ name).

Section SetupLoader.
(** [dataset.get_num_classes()] and
    [dataset.get_map_classid_to_classname()] *)
Context {ClassMap : Type}.
Variable get_num_classes : dataset_args -> Z.
Variable get_map_classid_to_classname : dataset_args -> ClassMap.
Variable c : BaseEncoderConfig.

(** lines 35-66; [None] is the validation loader of line 37 *)
Definition setup_loader (is_val verbose : bool)
    : result (option loader_args * Z * ClassMap) :=
  let* '(loader, dataset) :=
    if is_val then Ok (None, None)
    else
      let* U := getattr "num_utter_per_class" (num_utter_per_class c) in
      let* C := getattr "num_classes_in_batch" (num_classes_in_batch c) in
      let dataset := {|
        meta_data := if is_val then meta_data_eval else meta_data_train;
        ds_voice_len := voice_len c;
        ds_num_utter_per_class := U;
        ds_num_classes_in_batch := C;
        ds_verbose := verbose;
        ds_augmentation_config := negb is_val;
        ds_use_torch_spec :=
          default (PBool false) (model_params c !! "use_torch_spec")
      |} in
      let* C1 := getattr "num_classes_in_batch" (num_classes_in_batch c) in
      let* U1 := getattr "num_utter_per_class" (num_utter_per_class c) in
      let* C2 := getattr "num_classes_in_batch" (num_classes_in_batch c) in
      let sampler := {|
        batch_size := C1 * U1;
        sampler_num_classes_in_batch := C2;
        num_gpus := 1;
        shuffle := if is_val then false else true;
        drop_last := true
      |} in
      let* W := getattr "num_loader_workers" (num_loader_workers c) in
      Ok (Some {| dataset := dataset; num_workers := W;
                  batch_sampler := sampler |},
          Some dataset) in
  match dataset with
  | None => Raise (UnboundLocalError "dataset")
  | Some dataset =>
      Ok (loader, get_num_classes dataset,
          get_map_classid_to_classname dataset)
  end.
End SetupLoader.
End Loader.

(** ** The script entry (train_encoder.py, lines 241-255) *)

Module Script.

(** how [main(args)] ends: it returns, an [Exception] escapes it, or the
    user interrupts it ([KeyboardInterrupt]) *)
Inductive outcome (A : Type) : Type :=
| Completed (a : A)
| Failed (e : exn)
| Interrupted.
Arguments Completed {A} a.
Arguments Failed {A} e.
Arguments Interrupted {A}.

(** what the process leaves behind *)
Record process_end : Type := {
  exit_code : Z;
  remove_experiment_folder_called : bool;
  traceback_printed : bool
}.

(** the [try] statement around [main(args)]: [sys.exit(0)] is turned into
    [os._exit(0)]; [sys.exit(1)] ends the process with status 1; a script
    that runs to its end exits with status 0 *)
Definition finish {A : Type} (o : outcome A) : process_end :=
  match o with
  | Completed _ =>
      {| exit_code := 0; remove_experiment_folder_called := false;
         traceback_printed := false |}
  | Interrupted =>
      {| exit_code := 0; remove_experiment_folder_called := true;
         traceback_printed := false |}
  | Failed _ =>
      {| exit_code := 1; remove_experiment_folder_called := true;
         traceback_printed := true |}
  end.

(** [main(args)] interrupted or left to run *)
Definition attempt {A : Type} (interrupted : bool) (r : result A) : outcome A :=
  if interrupted then Interrupted
  else match r with
       | Ok a => Completed a
       | Raise e => Failed e
       end.
End Script.

(** ** A concrete instance, used to run the definitions

    The model counts the optimizer steps taken; the loss of a batch is its
    first (regrouped) feature and the gradient norm is zero. *)

Module Harness.
Import Config.

Definition scheduler_step (m : nat) : nat := m.

Definition train_batch (m : nat) (inputs : list float) (labels : list Z)
    : nat * float * float :=
  (S m, hd 0%float inputs, 0%float).

(** the declared defaults with 80 mel bands, and the given step budget,
    checkpoint cadence and batch composition *)
Definition config (max_steps save_every : Z) (C U W : option Z)
    : BaseEncoderConfig :=
  let d := defaults {| num_mels := 80 |} in
  {| model := model d; audio := audio d; model_params := model_params d;
     max_train_step := max_steps; loss := loss d; grad_clip := grad_clip d;
     lr := lr d; lr_decay := lr_decay d; warmup_steps := warmup_steps d;
     wd := wd d; tb_model_param_stats := tb_model_param_stats d;
     steps_plot_stats := steps_plot_stats d; checkpoint := checkpoint d;
     save_step := save_every; print_step := print_step d;
     num_classes_in_batch := C; num_utter_per_class := U;
     num_loader_workers := W;
     skip_classes := skip_classes d; voice_len := voice_len d |}.

(** a batch of three classes with two utterances each, as the sampler
    interleaves them, whose loss will be [loss] *)
Definition batch (loss loader_time : float) : @Train.item float Z :=
  {| Train.inputs := [loss; 2; 1; 3; 2; 1]%float;
     Train.labels := [3; 2; 1; 3; 2; 1];
     Train.loader_time := loader_time;
     Train.step_time := 0.5%float |}.

Definition train (c : BaseEncoderConfig) :=
  Train.train scheduler_step train_batch c.

Definition run (c : BaseEncoderConfig) :=
  Train.run scheduler_step train_batch c.

(** five steps at most, a checkpoint every 1000 steps, batches of three
    classes by two utterances, four loader workers *)
Definition c5 : BaseEncoderConfig := config 5 1000 (Some 3) (Some 2) (Some 4).

(** the same with two loader workers *)
Definition c5_two_workers : BaseEncoderConfig :=
  config 5 1000 (Some 3) (Some 2) (Some 2).

(** the same for a 40-band audio front end, the model still expecting 80 *)
Definition c5_narrow_audio : BaseEncoderConfig :=
  {| model := model c5; audio := {| num_mels := 40 |};
     model_params := model_params c5;
     max_train_step := max_train_step c5; loss := loss c5;
     grad_clip := grad_clip c5; lr := lr c5; lr_decay := lr_decay c5;
     warmup_steps := warmup_steps c5; wd := wd c5;
     tb_model_param_stats := tb_model_param_stats c5;
     steps_plot_stats := steps_plot_stats c5; checkpoint := checkpoint c5;
     save_step := save_step c5; print_step := print_step c5;
     num_classes_in_batch := num_classes_in_batch c5;
     num_utter_per_class := num_utter_per_class c5;
     num_loader_workers := num_loader_workers c5;
     skip_classes := skip_classes c5; voice_len := voice_len c5 |}.

Definition seven_batches : list (@Train.item float Z) :=
  [batch 4 0.25; batch 2 0.25; batch 1 0.25; batch 1 0.25;
   batch 0.5 0.25; batch 0.5 0.25; batch 0.5 0.25]%float.

(** a model with two parameters and a checkpoint that stores the first
    with the same shape, the second with another shape, and a parameter
    the model does not have *)
Definition param (shape : list Z) (x : float) : Main.tensor :=
  {| Main.shape := shape; Main.entries := [x] |}.

Definition fresh_model : gmap string Main.tensor :=
  <["lstm.weight" := param [2; 3] 0.5%float]>
  (<["proj.bias" := param [4] 0.125%float]> ∅).

Definition stored_model : gmap string Main.tensor :=
  <["lstm.weight" := param [2; 3] 7%float]>
  (<["proj.bias" := param [5] 8%float]>
  (<["old.layer" := param [1] 9%float]> ∅)).

Definition fresh_criterion (kind : Main.criterion_kind)
    : gmap string Main.tensor :=
  <["w" := param [] 10%float]> (<["b" := param [] (-5)%float]> ∅).

Definition stored : Main.checkpoint :=
  {| Main.ck_model := Some stored_model;
     Main.ck_criterion := Some (<["w" := param [] 11%float]> ∅);
     Main.ck_step := Some 1200 |}.

Definition fresh_modules : Main.modules :=
  {| Main.model_state := fresh_model;
     Main.criterion_state := fresh_criterion Main.AngleProtoLoss |}.

(** an optimizer whose group carries another learning rate *)
Definition stale_groups : list Main.param_group :=
  [ {| Main.group_lr := 0.5%float; Main.group_weight_decay := 0%float |} ].

Definition load_fsspec (path : string) : result Main.checkpoint :=
  if String.eqb path "best_model.pth" then Ok stored
  else Raise (OtherError "no such file").

Definition live (ms : Main.modules) (groups : list Main.param_group)
    (scheduler : option Z) : nat := O.

Definition main (c : BaseEncoderConfig) (restore_path : option string) :=
  Main.main scheduler_step train_batch load_fsspec fresh_model
    fresh_criterion seven_batches live c restore_path.

(** a budget of a hundred steps *)
Definition c100 : BaseEncoderConfig :=
  config 100 1000 (Some 3) (Some 2) (Some 4).

(** no checkpoint cadence *)
Definition c5_never_save : BaseEncoderConfig :=
  config 5 0 (Some 3) (Some 2) (Some 4).

(** a batch that lost an utterance *)
Definition short_batch : @Train.item float Z :=
  {| Train.inputs := [1; 2; 1; 3; 2]%float;
     Train.labels := [3; 2; 1; 3; 2];
     Train.loader_time := 0.25%float;
     Train.step_time := 0.5%float |}.

(** a checkpoint of the same model and criterion *)
Definition stored_fitting : Main.checkpoint :=
  {| Main.ck_model :=
       Some (<["lstm.weight" := param [2; 3] 7%float]>
             (<["proj.bias" := param [4] 8%float]> ∅));
     Main.ck_criterion :=
       Some (<["w" := param [] 11%float]> (<["b" := param [] 12%float]> ∅));
     Main.ck_step := Some 1200 |}.
End Harness.

(** * Verified properties *)

Section GridFacts.
Context {A : Type}.
Implicit Types (l r : list A) (m : list (list A)).
Import Regroup.

Lemma rows_of_rect rows cols l :
  length l = (rows * cols)%nat -> rect rows cols (rows_of rows cols l).
Proof.
  revert l. induction rows as [|n IH]; intros l Hl; simpl.
  - split; [reflexivity | constructor].
  - destruct (IH (drop cols l)) as [H1 H2].
    { rewrite length_drop. simpl in Hl. lia. }
    split; simpl; [congruence|].
    constructor; [|exact H2]. rewrite length_take. simpl in Hl. lia.
Qed.

Lemma concat_rows_of rows cols l :
  length l = (rows * cols)%nat -> concat (rows_of rows cols l) = l.
Proof.
  revert l. induction rows as [|n IH]; intros l Hl; simpl.
  - destruct l; [reflexivity | discriminate].
  - rewrite IH; [apply take_drop|]. rewrite length_drop. simpl in Hl. lia.
Qed.

Lemma rows_of_concat rows cols m :
  rect rows cols m -> rows_of rows cols (concat m) = m.
Proof.
  intros [Hlen Hall]. subst rows. induction Hall as [|r m Hr _ IH]; simpl.
  - reflexivity.
  - subst cols. rewrite take_app_length, drop_app_length, IH. reflexivity.
Qed.

Lemma length_concat_rect rows cols m :
  rect rows cols m -> length (concat m) = (rows * cols)%nat.
Proof.
  intros [Hlen Hall]. subst rows. induction Hall as [|r m Hr _ IH]; simpl.
  - reflexivity.
  - rewrite length_app, IH, Hr. reflexivity.
Qed.

Lemma transpose_rect rows cols m :
  rect rows cols m -> rect cols rows (transpose cols m).
Proof.
  intros [Hlen Hall]. subst rows. induction Hall as [|r m Hr _ [IH1 IH2]]; simpl.
  - split; [apply length_replicate|]. apply Forall_replicate. reflexivity.
  - split.
    + rewrite length_zip_with. lia.
    + clear Hr IH1. revert r. induction IH2 as [|t ts Ht _ IH]; intros r.
      * destruct r; constructor.
      * destruct r; simpl; constructor; [simpl; lia | apply IH].
Qed.

(** stacking a column in front of a grid, then transposing, puts the column
    on top as a row *)
Lemma transpose_cons_column n r (t : list (list A)) :
  length r = length t -> Forall (fun x => length x = n) t ->
  transpose (S n) (zip_with cons r t) = r :: transpose n t.
Proof.
  intros Hlen Hall. revert r Hlen.
  induction Hall as [|x t Hx _ IH]; intros r Hlen.
  - destruct r; [reflexivity | discriminate].
  - destruct r as [|a r]; [discriminate|]. simpl.
    rewrite IH by (simpl in Hlen; lia). reflexivity.
Qed.

Lemma transpose_involutive rows cols m :
  rect rows cols m -> transpose rows (transpose cols m) = m.
Proof.
  intros [Hlen Hall]. subst rows. induction Hall as [|r m Hr Hall IH]; simpl.
  - destruct cols; reflexivity.
  - destruct (transpose_rect (length m) cols m) as [H1 H2]; [split; auto|].
    rewrite transpose_cons_column; [rewrite IH; reflexivity | lia | exact H2].
Qed.

Lemma concat_zip_with_cons r (t : list (list A)) :
  length r = length t -> concat (zip_with cons r t) ≡ₚ r ++ concat t.
Proof.
  revert t. induction r as [|a r IH]; intros [|x t] Hlen; try discriminate; simpl.
  - reflexivity.
  - constructor. rewrite IH by (simpl in Hlen; lia).
    rewrite !app_assoc. apply Permutation_app_tail, Permutation_app_comm.
Qed.

Lemma concat_transpose rows cols m :
  rect rows cols m -> concat (transpose cols m) ≡ₚ concat m.
Proof.
  intros [Hlen Hall]. subst rows. induction Hall as [|r m Hr Hall IH]; simpl.
  - induction cols; simpl; [reflexivity | assumption].
  - destruct (transpose_rect (length m) cols m) as [H1 H2]; [split; auto|].
    rewrite concat_zip_with_cons by lia. rewrite IH. reflexivity.
Qed.
End GridFacts.

Section GridIndex.
Context {A : Type}.
Implicit Types (l r : list A) (m : list (list A)).
Import Regroup.

Lemma rows_of_lookup rows cols l (i : nat) :
  (i < rows)%nat ->
  rows_of rows cols l !! i = Some (take cols (drop (i * cols) l)).
Proof.
  revert l i. induction rows as [|n IH]; intros l i Hi; [lia|].
  destruct i as [|i]; simpl.
  - reflexivity.
  - rewrite IH by lia. rewrite drop_drop. reflexivity.
Qed.

Lemma transpose_lookup cols m (j : nat) row (i : nat) :
  transpose cols m !! j = Some row ->
  (i < length m)%nat ->
  row !! i = m !! i ≫= (fun r => r !! j).
Proof.
  revert row i. induction m as [|r m IH]; intros row i Hrow Hi; simpl in *; [lia|].
  rewrite lookup_zip_with in Hrow.
  destruct (r !! j) as [a|] eqn:Ha; [|discriminate]. simpl in Hrow.
  destruct (transpose cols m !! j) as [row'|] eqn:Hr; [|discriminate].
  simpl in Hrow. injection Hrow as <-.
  destruct i as [|i]; simpl.
  - symmetry. exact Ha.
  - apply IH; [reflexivity | lia].
Qed.

Lemma concat_lookup_rect rows cols m (j i : nat) :
  rect rows cols m -> (i < cols)%nat ->
  concat m !! (j * cols + i)%nat = m !! j ≫= (fun r => r !! i).
Proof.
  intros [_ Hall]. revert j. induction Hall as [|r m Hr _ IH]; intros j Hi.
  - simpl. rewrite !lookup_nil. reflexivity.
  - destruct j as [|j]; simpl.
    + rewrite lookup_app_l by lia. reflexivity.
    + rewrite lookup_app_r by lia.
      replace (cols + j * cols + i - length r)%nat with (j * cols + i)%nat by lia.
      apply IH. exact Hi.
Qed.

(** entry [(i, j)] of the [rows] x [cols] view lands at position
    [j * rows + i] of the transposed, flattened sequence *)
Lemma regrouped_lookup rows cols l (i j : nat) :
  length l = (rows * cols)%nat -> (i < rows)%nat -> (j < cols)%nat ->
  concat (transpose cols (rows_of rows cols l)) !! (j * rows + i)%nat
  = l !! (i * cols + j)%nat.
Proof.
  intros Hl Hi Hj.
  pose proof (rows_of_rect rows cols l Hl) as Hm.
  pose proof (transpose_rect _ _ _ Hm) as Ht.
  rewrite (concat_lookup_rect cols rows) by assumption.
  destruct Ht as [Hlen _].
  destruct (transpose cols (rows_of rows cols l) !! j) as [row|] eqn:Hrow.
  - simpl. rewrite (transpose_lookup _ _ _ _ _ Hrow) by (destruct Hm; lia).
    rewrite rows_of_lookup by lia. simpl.
    rewrite lookup_take, decide_True by lia. rewrite lookup_drop. reflexivity.
  - apply lookup_ge_None in Hrow. lia.
Qed.

Lemma rows_of_map {B} (f : A -> B) rows cols l :
  rows_of rows cols (map f l) = map (map f) (rows_of rows cols l).
Proof.
  revert l. induction rows as [|n IH]; intros l; simpl; [reflexivity|].
  rewrite firstn_map, skipn_map, IH. reflexivity.
Qed.

Lemma transpose_map {B} (f : A -> B) cols m :
  transpose cols (map (map f) m) = map (map f) (transpose cols m).
Proof.
  induction m as [|r m IH]; simpl.
  - induction cols; simpl; [reflexivity | f_equal; assumption].
  - rewrite IH. generalize (transpose cols m). clear.
    induction r as [|a r IH]; intros [|x t]; simpl; try reflexivity.
    f_equal. apply IH.
Qed.

Lemma concat_map_map {B} (f : A -> B) m :
  concat (map (map f) m) = map f (concat m).
Proof.
  induction m as [|r m IH]; simpl; [reflexivity|].
  rewrite map_app, IH. reflexivity.
Qed.
End GridIndex.

Section RegroupFacts.
Context {A : Type}.
Import Regroup.

Lemma view_ok (U C : Z) (l : list A) :
  0 <= U -> 0 <= C -> Z.of_nat (length l) = U * C ->
  view U C l = Ok (rows_of (Z.to_nat U) (Z.to_nat C) l).
Proof.
  intros HU HC Hl. unfold view. rewrite decide_True; [reflexivity | auto].
Qed.

Lemma regroup_ok (U C : Z) (l : list A) :
  0 <= U -> 0 <= C -> Z.of_nat (length l) = U * C ->
  regroup U C l
  = Ok (concat (transpose (Z.to_nat C) (rows_of (Z.to_nat U) (Z.to_nat C) l))).
Proof. intros HU HC Hl. unfold regroup. rewrite view_ok by assumption. reflexivity. Qed.

Lemma regroup_map {B} (f : A -> B) (U C : Z) (l l' : list A) :
  regroup U C l = Ok l' -> regroup U C (map f l) = Ok (map f l').
Proof.
  unfold regroup, view. rewrite length_map.
  case_decide; simpl; [|discriminate]. intros [= <-].
  rewrite rows_of_map, transpose_map, concat_map_map. reflexivity.
Qed.

Lemma regroup_length (U C : Z) (l l' : list A) :
  regroup U C l = Ok l' -> length l' = length l.
Proof.
  unfold regroup, view. case_decide as H; simpl; [|discriminate].
  destruct H as (HU & HC & Hl). intros [= <-].
  assert (Hn : length l = (Z.to_nat U * Z.to_nat C)%nat) by lia.
  rewrite (length_concat_rect (Z.to_nat C) (Z.to_nat U)).
  - lia.
  - apply transpose_rect, rows_of_rect, Hn.
Qed.

Lemma regroup_inverse (U C : Z) (l l' : list A) :
  regroup U C l = Ok l' -> regroup C U l' = Ok l.
Proof.
  intros H. pose proof (regroup_length _ _ _ _ H) as Hlen. revert H.
  unfold regroup at 1, view. case_decide as H; simpl; [|discriminate].
  destruct H as (HU & HC & Hl). intros [= <-].
  assert (Hn : length l = (Z.to_nat U * Z.to_nat C)%nat) by lia.
  pose proof (rows_of_rect _ _ _ Hn) as Hm.
  pose proof (transpose_rect _ _ _ Hm) as Ht.
  rewrite regroup_ok by lia.
  rewrite rows_of_concat by exact Ht.
  rewrite (transpose_involutive _ _ _ Hm).
  rewrite concat_rows_of by exact Hn. reflexivity.
Qed.

Lemma regroup_permutation (U C : Z) (l l' : list A) :
  regroup U C l = Ok l' -> l' ≡ₚ l.
Proof.
  unfold regroup, view. case_decide as H; simpl; [|discriminate].
  destruct H as (HU & HC & Hl). intros [= <-].
  assert (Hn : length l = (Z.to_nat U * Z.to_nat C)%nat) by lia.
  rewrite (concat_transpose _ _ _ (rows_of_rect _ _ _ Hn)).
  rewrite concat_rows_of by exact Hn. reflexivity.
Qed.
End RegroupFacts.

Section Pairs.
Context {F L : Type}.

Lemma map_fst_zip (a : list F) (b : list L) :
  length a = length b -> map fst (zip a b) = a.
Proof.
  revert b. induction a as [|x a IH]; intros [|y b] H; try discriminate; simpl.
  - reflexivity.
  - rewrite IH by (simpl in H; lia). reflexivity.
Qed.

Lemma map_snd_zip (a : list F) (b : list L) :
  length a = length b -> map snd (zip a b) = b.
Proof.
  revert b. induction a as [|x a IH]; intros [|y b] H; try discriminate; simpl.
  - reflexivity.
  - rewrite IH by (simpl in H; lia). reflexivity.
Qed.

Lemma zip_map_fst_snd (p : list (F * L)) : zip (map fst p) (map snd p) = p.
Proof. induction p as [|[x y] p IH]; simpl; [reflexivity | rewrite IH; reflexivity]. Qed.
End Pairs.

(** the case of the comment on line 83: the sampler yields the classes
    interleaved, [3, 2, 1, 3, 2, 1], and the loss needs them grouped *)
Example regroup_interleaved_classes :
  Regroup.regroup 2 3 [3; 2; 1; 3; 2; 1] = Ok [3; 3; 2; 2; 1; 1].
Proof. reflexivity. Qed.

(** C2. For a batch of [N = num_classes_in_batch * num_utter_per_class]
    elements, the regrouping of lines 84-85 (view as a [U] x [C] grid,
    transpose, flatten) succeeds on the features and on the labels, moves the
    element at grid position [(i, j)], index [i * C + j], to index [j * U + i]
    together with its label, is undone by the inverse transpose (the same
    transform with the two sizes swapped), and leaves the multiset of
    (feature, label) pairs unchanged.  On a non-empty batch the feature view
    of line 85, with its inferred third size, is the same permutation. *)
Theorem regroup_label_preserving_bijection {F L : Type}
    (U C : Z) (inputs : list F) (labels : list L) :
  0 <= U -> 0 <= C ->
  Z.of_nat (length inputs) = C * U ->
  Z.of_nat (length labels) = C * U ->
  exists inputs' labels',
    Regroup.regroup U C inputs = Ok inputs' /\
    Regroup.regroup U C labels = Ok labels' /\
    (U * C <> 0 -> Regroup.regroup_rows U C inputs = Ok inputs') /\
    Regroup.regroup C U inputs' = Ok inputs /\
    Regroup.regroup C U labels' = Ok labels /\
    Regroup.regroup U C (zip inputs labels) = Ok (zip inputs' labels') /\
    zip inputs' labels' ≡ₚ zip inputs labels /\
    (forall i j : nat, Z.of_nat i < U -> Z.of_nat j < C ->
       zip inputs' labels' !! (j * Z.to_nat U + i)%nat
       = zip inputs labels !! (i * Z.to_nat C + j)%nat).
Proof.
  intros HU HC Hi Hl.
  set (p := zip inputs labels).
  assert (Hlen : length inputs = length labels) by lia.
  assert (Hp : Z.of_nat (length p) = U * C).
  { unfold p. rewrite length_zip_with. lia. }
  pose proof (regroup_ok U C p HU HC Hp) as Hrp.
  set (p' := concat _) in Hrp.
  exists (map fst p'), (map snd p').
  pose proof (regroup_map fst _ _ _ _ Hrp) as Hfst.
  pose proof (regroup_map snd _ _ _ _ Hrp) as Hsnd.
  unfold p in Hfst, Hsnd.
  rewrite map_fst_zip in Hfst by exact Hlen.
  rewrite map_snd_zip in Hsnd by exact Hlen.
  rewrite zip_map_fst_snd.
  repeat split.
  - exact Hfst.
  - exact Hsnd.
  - intros Hne. unfold Regroup.regroup_rows. rewrite decide_False by exact Hne.
    exact Hfst.
  - apply regroup_inverse. exact Hfst.
  - apply regroup_inverse. exact Hsnd.
  - exact Hrp.
  - apply (regroup_permutation U C). exact Hrp.
  - intros i j Hi' Hj'. unfold p'. apply regrouped_lookup; lia.
Qed.

Lemma regroup_label_preserving_bijection_witness :
  exists inputs' labels',
    Regroup.regroup 2 3 [10; 20; 30; 40; 50; 60] = Ok inputs' /\
    Regroup.regroup 2 3 [3; 2; 1; 3; 2; 1] = Ok labels' /\
    zip inputs' labels' ≡ₚ zip [10; 20; 30; 40; 50; 60] [3; 2; 1; 3; 2; 1].
Proof.
  destruct (regroup_label_preserving_bijection 2 3
              [10; 20; 30; 40; 50; 60] [3; 2; 1; 3; 2; 1])
    as (i' & l' & H1 & H2 & _ & _ & _ & _ & H3 & _);
    [lia | lia | reflexivity | reflexivity |].
  exists i', l'. auto.
Defined.

Section TrainFacts.
Context {Feature Label Model : Type}.
Variable scheduler_step : Model -> Model.
Variable train_batch :
  Model -> list Feature -> list Label -> Model * float * float.
Variable c : Config.BaseEncoderConfig.
Import Config Train.

Local Abbreviation state := (@Train.state Model).
Local Abbreviation item := (@Train.item Feature Label).
Local Abbreviation train_step := (Train.train_step scheduler_step train_batch c).
Local Abbreviation loop := (Train.loop scheduler_step train_batch c).
Local Abbreviation run := (Train.run scheduler_step train_batch c).
Local Abbreviation train := (Train.train scheduler_step train_batch c).
Local Abbreviation loss_item := (Train.loss_item scheduler_step train_batch c).

Implicit Types (st : state) (data : item).

(** one loop body, when nothing raises *)
Lemma train_step_ok (U C W : Z) st data :
  loop_ready c U C W -> well_sized U C data ->
  exists st',
    train_step st data
    = Ok (st', bool_decide (global_step st + 1 >= max_train_step c)) /\
    global_step st' = global_step st + 1 /\
    batches st' = S (batches st) /\
    avg_loss st' = smooth_loss (avg_loss st) (loss_item U C st data) /\
    avg_loader_time st'
    = smooth_loader_time (effective_workers W) (avg_loader_time st) (loader_time data) /\
    let saves := triggered c (global_step st') && PrimFloat.ltb (avg_loss st') (best_loss st) in
    best_loss st' = (if saves then avg_loss st' else best_loss st) /\
    checkpoints st'
    = checkpoints st ++ (if saves then [(global_step st', avg_loss st')] else []).
Proof.
  intros (HU & HC & HW & HUpos & HCpos & Hplot & Hprint & Hsave) [Hin Hlab].
  unfold Train.train_step, Train.loss_item, triggered.
  rewrite HU, HC, HW. simpl.
  rewrite (regroup_ok U C (labels data)) by lia. simpl.
  unfold Regroup.regroup_rows. rewrite decide_False by lia.
  rewrite (regroup_ok U C (inputs data)) by lia. simpl.
  fold (Regroup.regrouped U C (inputs data)).
  fold (Regroup.regrouped U C (labels data)).
  destruct (train_batch _ _ _) as [[m loss] grad_norm]. simpl.
  unfold py_mod. rewrite !(decide_False (P := _ = 0)) by assumption. simpl.
  set (gs := global_step st + 1).
  set (avg := smooth_loss (avg_loss st) loss).
  assert (Hfields : forall (b : bool) (new : list (Z * float)) l,
             (if b then new = [(gs, avg)] else new = []) ->
             l = rev (omap (fun e => match e with
                                     | Saved s x _ => Some (s, x)
                                     | _ => None
                                     end) (effects st)) ++ new ->
             l = checkpoints st ++ (if b then [(gs, avg)] else [])).
  { intros b new l Hb ->. unfold checkpoints. destruct b; subst new; reflexivity. }
  destruct (decide (gs >= max_train_step c)) as [Hmax|Hmax]; simpl.
  - unfold save_best_model.
    destruct (PrimFloat.ltb avg (best_loss st)) eqn:Hlt;
      eexists; (split; [reflexivity|]); simpl;
      rewrite (bool_decide_eq_true_2 (_ \/ _)) by (left; exact Hmax);
      rewrite Hlt; simpl; repeat split; try reflexivity.
    + apply (Hfields true [(gs, avg)]); [reflexivity|].
      unfold checkpoints; simpl. repeat case_decide; reflexivity.
    + apply (Hfields false []); [reflexivity|].
      unfold checkpoints; simpl. rewrite app_nil_r.
      repeat case_decide; reflexivity.
  - destruct (decide (gs mod save_step c = 0)) as [Hmod|Hmod].
    + rewrite (bool_decide_eq_true_2 (_ = 0)) by exact Hmod. simpl.
      unfold save_best_model.
      destruct (PrimFloat.ltb avg (best_loss st)) eqn:Hlt;
        eexists; (split; [rewrite (bool_decide_eq_false_2 (_ >= _)) by exact Hmax;
                          reflexivity|]); simpl;
        rewrite (bool_decide_eq_true_2 (_ \/ _)) by (right; exact Hmod);
        rewrite Hlt; simpl; repeat split; try reflexivity.
      * apply (Hfields true [(gs, avg)]); [reflexivity|].
        unfold checkpoints; simpl. repeat case_decide; reflexivity.
      * apply (Hfields false []); [reflexivity|].
        unfold checkpoints; simpl. rewrite app_nil_r.
        repeat case_decide; reflexivity.
    + rewrite (bool_decide_eq_false_2 (_ = 0)) by exact Hmod. simpl.
      eexists; (split; [rewrite (bool_decide_eq_false_2 (_ >= _)) by exact Hmax;
                        reflexivity|]); simpl.
      rewrite (bool_decide_eq_false_2 (_ \/ _)) by tauto.
      simpl; repeat split; try reflexivity.
      apply (Hfields false []); [reflexivity|].
      unfold checkpoints; simpl. rewrite app_nil_r.
      repeat case_decide; reflexivity.
Qed.

(** whatever the configuration, a loop body that completes has advanced
    [global_step] by one, and it breaks exactly when the step count has
    reached [max_train_step] *)
Lemma train_step_counts st data st' stop :
  train_step st data = Ok (st', stop) ->
  global_step st' = global_step st + 1 /\
  batches st' = S (batches st) /\
  stop = bool_decide (global_step st' >= max_train_step c).
Proof.
  unfold Train.train_step, py_mod, save_best_model.
  destruct (num_utter_per_class c) as [U|]; simpl; [|discriminate].
  destruct (num_classes_in_batch c) as [C|]; simpl; [|discriminate].
  destruct (Regroup.regroup U C (labels data)); simpl; [|discriminate].
  destruct (Regroup.regroup_rows U C (inputs data)); simpl; [|discriminate].
  destruct (train_batch _ _ _) as [[m loss] grad_norm].
  destruct (num_loader_workers c) as [W|]; simpl; [|discriminate].
  destruct (decide (steps_plot_stats c = 0)); simpl; [discriminate|].
  destruct (decide (print_step c = 0)); simpl; [discriminate|].
  destruct (decide (global_step st + 1 >= max_train_step c)) as [Hmax|Hmax]; simpl.
  - destruct (PrimFloat.ltb _ _); intros [= <- <-]; simpl;
      rewrite bool_decide_eq_true_2 by exact Hmax; auto.
  - destruct (decide (save_step c = 0)); simpl; [discriminate|].
    case_bool_decide; [destruct (PrimFloat.ltb _ _)|]; intros [= <- <-]; simpl;
      rewrite ?bool_decide_eq_false_2 by exact Hmax; auto.
Qed.

(** the whole pass, when nothing raises: it takes as many batches as the
    loader has, up to the budget, and every checkpoint it writes is written
    on a step that satisfies the condition of line 162 *)
Lemma loop_ok (U C W : Z) :
  loop_ready c U C W ->
  forall data_loader st,
    Forall (well_sized U C) data_loader ->
    exists st' new,
      loop st data_loader = Ok st' /\
      batches st'
      = (batches st + Nat.min (length data_loader) (budget c (global_step st)))%nat /\
      global_step st'
      = global_step st
        + Z.of_nat (Nat.min (length data_loader) (budget c (global_step st))) /\
      checkpoints st' = checkpoints st ++ new /\
      Forall (fun p => global_step st < p.1 <= global_step st'
                       /\ triggered c p.1 = true) new.
Proof.
  intros Hready data_loader.
  induction data_loader as [|data rest IH]; intros st Hsized.
  - exists st, []. simpl. rewrite app_nil_r, Nat.add_0_r, Z.add_0_r.
    repeat split; constructor.
  - inversion Hsized as [|? ? Hdata Hrest]; subst.
    destruct (train_step_ok U C W st data Hready Hdata)
      as (st1 & Hstep & Hgs & Hb & _ & _ & _ & Hck).
    simpl. rewrite Hstep. simpl.
    assert (Hnew : Forall (fun p : Z * float =>
                global_step st < p.1 <= global_step st1 /\ triggered c p.1 = true)
              (if triggered c (global_step st1)
                  && PrimFloat.ltb (avg_loss st1) (best_loss st)
               then [(global_step st1, avg_loss st1)] else [])).
    { destruct (triggered c (global_step st1)) eqn:Ht; simpl; [|constructor].
      destruct (PrimFloat.ltb _ _); constructor; [|constructor].
      simpl. split; [lia | exact Ht]. }
    case_bool_decide as Hmax.
    + exists st1, (if triggered c (global_step st1)
                      && PrimFloat.ltb (avg_loss st1) (best_loss st)
                   then [(global_step st1, avg_loss st1)] else []).
      assert (Hbud : budget c (global_step st) = 1%nat) by (unfold budget; lia).
      rewrite Hbud, Hb.
      replace (Nat.min (S (length rest)) 1) with 1%nat by lia.
      repeat split; [lia | lia | exact Hck | exact Hnew].
    + destruct (IH st1 Hrest) as (st' & new & Hloop & Hb' & Hgs' & Hck' & Hall).
      exists st', ((if triggered c (global_step st1)
                       && PrimFloat.ltb (avg_loss st1) (best_loss st)
                    then [(global_step st1, avg_loss st1)] else []) ++ new).
      assert (Hbud : budget c (global_step st)
                     = S (budget c (global_step st1))) by (unfold budget; lia).
      rewrite Hbud. simpl Nat.min.
      repeat split.
      * exact Hloop.
      * rewrite Hb', Hb. simpl. lia.
      * rewrite Hgs', Hgs. lia.
      * rewrite Hck', Hck, app_assoc. reflexivity.
      * apply Forall_app. split.
        -- eapply Forall_impl; [exact Hnew|]. simpl. intros p [? ?]. split; [lia|assumption].
        -- eapply Forall_impl; [exact Hall|]. simpl. intros p [? ?]. split; [lia|assumption].
Qed.

Lemma run_ok (U C W : Z) (m : Model) data_loader (g0 : Z) :
  loop_ready c U C W -> Forall (well_sized U C) data_loader ->
  exists st,
    run m data_loader g0 = Ok st /\
    train m data_loader g0 = Ok (avg_loss st, global_step st) /\
    batches st = Nat.min (length data_loader) (budget c g0) /\
    global_step st = g0 + Z.of_nat (batches st) /\
    Forall (fun p => g0 < p.1 <= global_step st /\ triggered c p.1 = true)
           (checkpoints st).
Proof.
  intros Hready Hsized.
  destruct (loop_ok U C W Hready data_loader (init m g0) Hsized)
    as (st & new & Hloop & Hb & Hgs & Hck & Hall).
  exists st. unfold Train.train, Train.run. rewrite Hloop. simpl in *.
  repeat split; [exact Hb | lia | rewrite Hck; exact Hall].
Qed.

(** C1 (amended). [global_step] grows by exactly one per processed batch
    and the budget is tested after each of them, the loop breaking as soon
    as [global_step >= max_train_step]: a loop entered at [g0]
    with a loader of well-sized batches returns the smoothed loss and the
    step count after [min (length data_loader) (max 1 (max_train_step - g0))]
    batches.  Entered below [max_train_step] it never takes a batch beyond
    step [max_train_step], and stops there when the loader is long enough;
    entered at or above [max_train_step] it still takes one batch. *)
Theorem train_step_budget (U C W : Z) (m : Model) data_loader (g0 : Z) :
  loop_ready c U C W -> Forall (well_sized U C) data_loader ->
  (forall st data st' stop,
     train_step st data = Ok (st', stop) ->
     global_step st' = global_step st + 1 /\
     stop = bool_decide (global_step st' >= max_train_step c)) /\
  exists st,
    run m data_loader g0 = Ok st /\
    train m data_loader g0 = Ok (avg_loss st, global_step st) /\
    global_step st = g0 + Z.of_nat (batches st) /\
    batches st = Nat.min (length data_loader) (budget c g0) /\
    (g0 < max_train_step c ->
     global_step st <= max_train_step c /\
     (max_train_step c - g0 <= Z.of_nat (length data_loader) ->
      global_step st = max_train_step c)) /\
    (max_train_step c <= g0 -> batches st = Nat.min (length data_loader) 1).
Proof.
  intros Hready Hsized. split.
  { intros st data st' stop Hstep.
    destruct (train_step_counts st data st' stop Hstep) as (Hgs & _ & Hstop).
    split; assumption. }
  destruct (run_ok U C W m data_loader g0 Hready Hsized)
    as (st & Hrun & Htrain & Hb & Hgs & _).
  exists st. unfold budget in *.
  repeat split; try assumption; intros; lia.
Qed.

(** C10. The loop makes one pass over the loader: with fewer well-sized
    batches than [max_train_step - global_step] it takes each batch once
    and returns when the loader is exhausted, with
    [global_step < max_train_step]; every checkpoint written was written on
    a step that is a multiple of [save_step], none by the
    [max_train_step] trigger. *)
Theorem train_loader_exhausted (U C W : Z) (m : Model) data_loader (g0 : Z) :
  loop_ready c U C W -> Forall (well_sized U C) data_loader ->
  Z.of_nat (length data_loader) < max_train_step c - g0 ->
  exists st,
    run m data_loader g0 = Ok st /\
    train m data_loader g0 = Ok (avg_loss st, global_step st) /\
    batches st = length data_loader /\
    global_step st = g0 + Z.of_nat (length data_loader) /\
    global_step st < max_train_step c /\
    Forall (fun p => p.1 < max_train_step c /\ p.1 mod save_step c = 0)
           (checkpoints st).
Proof.
  intros Hready Hsized Hshort.
  destruct (run_ok U C W m data_loader g0 Hready Hsized)
    as (st & Hrun & Htrain & Hb & Hgs & Hall).
  assert (Hn : batches st = length data_loader) by (unfold budget in Hb; lia).
  exists st. repeat split; try assumption; try lia.
  eapply Forall_impl; [exact Hall|]. simpl. intros p [Hp Ht].
  unfold triggered in Ht. apply bool_decide_eq_true_1 in Ht. lia.
Qed.

(** C3 (amended). The first step of a call seeds the smoothed loss with the
    loss it observes, [avg = L0]; a later step that finds a non-zero average
    sets [avg_n = 0.01 * L_n + 0.99 * avg_(n-1)]; a step that finds the
    average equal to zero, as before the first observation, seeds it with
    its own loss. *)
Theorem smoothed_loss_update (U C W : Z) :
  loop_ready c U C W ->
  (forall m g0 data, well_sized U C data ->
     exists st' stop,
       train_step (init m g0) data = Ok (st', stop) /\
       avg_loss st' = loss_item U C (init m g0) data) /\
  (forall st data, well_sized U C data ->
     exists st' stop,
       train_step st data = Ok (st', stop) /\
       (nonzero (avg_loss st) = true ->
        avg_loss st'
        = (0.01 * loss_item U C st data + 0.99 * avg_loss st)%float) /\
       (nonzero (avg_loss st) = false ->
        avg_loss st' = loss_item U C st data)).
Proof.
  intros Hready. split.
  - intros m g0 data Hdata.
    destruct (train_step_ok U C W (init m g0) data Hready Hdata)
      as (st' & Hstep & _ & _ & Havg & _).
    eexists st', _. split; [exact Hstep|]. rewrite Havg. reflexivity.
  - intros st data Hdata.
    destruct (train_step_ok U C W st data Hready Hdata)
      as (st' & Hstep & _ & _ & Havg & _).
    eexists st', _. split; [exact Hstep|].
    rewrite Havg. unfold smooth_loss.
    split; intros ->; reflexivity.
Qed.


(** a step on which the condition of line 162 is false writes nothing *)
Lemma quiet_step (U C W : Z) st data :
  loop_ready c U C W -> well_sized U C data ->
  triggered c (global_step st + 1) = false ->
  exists st',
    train_step st data = Ok (st', false) /\
    global_step st' = global_step st + 1 /\
    batches st' = S (batches st) /\
    best_loss st' = best_loss st /\
    checkpoints st' = checkpoints st.
Proof.
  intros Hready Hdata Hquiet.
  destruct (train_step_ok U C W st data Hready Hdata)
    as (st' & Hstep & Hgs & Hb & _ & _ & Hbest & Hck).
  simpl in Hbest, Hck. rewrite Hgs, Hquiet in Hbest, Hck. simpl in Hbest, Hck.
  rewrite app_nil_r in Hck.
  exists st'. repeat split; try assumption.
  rewrite Hstep. do 2 f_equal. apply bool_decide_eq_false_2.
  unfold triggered in Hquiet. apply bool_decide_eq_false_1 in Hquiet. tauto.
Qed.

(** the step that reaches [max_train_step] calls [save_best_model] and
    breaks *)
Lemma last_step (U C W : Z) st data :
  loop_ready c U C W -> well_sized U C data ->
  global_step st + 1 >= max_train_step c ->
  exists st',
    train_step st data = Ok (st', true) /\
    global_step st' = global_step st + 1 /\
    batches st' = S (batches st) /\
    checkpoints st'
    = checkpoints st
      ++ (if PrimFloat.ltb (avg_loss st') (best_loss st)
          then [(global_step st', avg_loss st')] else []).
Proof.
  intros Hready Hdata Hmax.
  destruct (train_step_ok U C W st data Hready Hdata)
    as (st' & Hstep & Hgs & Hb & _ & _ & _ & Hck).
  assert (Ht : triggered c (global_step st') = true).
  { unfold triggered. apply bool_decide_eq_true_2. left. lia. }
  rewrite Ht in Hck. simpl in Hck.
  exists st'. repeat split; try assumption.
  rewrite Hstep. do 2 f_equal. apply bool_decide_eq_true_2. exact Hmax.
Qed.

End TrainFacts.

(** ** The properties on concrete runs *)

Ltac harness_ready :=
  unfold Train.loop_ready; simpl; repeat split; (reflexivity || lia).

Ltac harness_sized :=
  repeat constructor.

(** C1: a loop entered with [global_step = max_train_step = 5], as after
    restoring the last checkpoint of a finished run, processes a sixth
    batch and returns step 6. *)
Lemma train_past_budget :
  Config.max_train_step Harness.c5 = 5 /\
  Harness.train Harness.c5 0 [Harness.batch 1 0.25] 5 = Ok (1%float, 6) /\
  exists st,
    Harness.run Harness.c5 0 [Harness.batch 1 0.25] 5 = Ok st /\
    Train.batches st = 1%nat.
Proof.
  split; [reflexivity|]. split; [vm_compute; reflexivity|].
  eexists. split; [vm_compute; reflexivity | reflexivity].
Qed.

Lemma train_step_budget_witness :
  exists st,
    Harness.run Harness.c5 0 Harness.seven_batches 0 = Ok st /\
    Train.global_step st = 5 /\ Train.batches st = 5%nat.
Proof.
  destruct (train_step_budget Harness.scheduler_step Harness.train_batch
              Harness.c5 2 3 4 0%nat Harness.seven_batches 0)
    as (_ & st & Hrun & _ & Hgs & Hb & _); [harness_ready | harness_sized |].
  exists st. split; [exact Hrun|].
  change (Train.batches st = 5%nat) in Hb. rewrite Hb in Hgs.
  split; [exact Hgs | exact Hb].
Defined.

Lemma train_loader_exhausted_witness :
  exists st,
    Harness.run Harness.c5 0 [Harness.batch 1 0.25; Harness.batch 2 0.25] 1 = Ok st /\
    Train.global_step st = 3 /\ Train.checkpoints st = [].
Proof.
  destruct (train_loader_exhausted Harness.scheduler_step Harness.train_batch
              Harness.c5 2 3 4 0%nat
              [Harness.batch 1 0.25; Harness.batch 2 0.25] 1)
    as (st & Hrun & _ & _ & Hgs & _ & Hck);
    [harness_ready | harness_sized | simpl; lia |].
  exists st. split; [exact Hrun|]. split; [exact Hgs|].
  assert (Hinv : Train.run Harness.scheduler_step Harness.train_batch Harness.c5
                   0%nat [Harness.batch 1 0.25; Harness.batch 2 0.25] 1 = Ok st)
    by exact Hrun.
  vm_compute in Hinv. injection Hinv as <-. reflexivity.
Defined.

(** C3: with losses 0 and then 1, the first step seeds the average with 0
    and the second step, finding the average equal to zero, seeds it again
    with 1, where the moving average would give 0.01 * 1 + 0.99 * 0. *)
Lemma smoothed_loss_reseeded :
  Harness.train Harness.c5 0 [Harness.batch 0 0.25] 0 = Ok (0%float, 1) /\
  Harness.train Harness.c5 0 [Harness.batch 0 0.25; Harness.batch 1 0.25] 0
  = Ok (1%float, 2) /\
  (0.01 * 1 + 0.99 * 0)%float <> 1%float.
Proof.
  split; [vm_compute; reflexivity|]. split; [vm_compute; reflexivity|].
  intros H. apply (f_equal (fun x => PrimFloat.eqb x 1%float)) in H.
  vm_compute in H. discriminate.
Qed.

Lemma smoothed_loss_update_witness :
  exists st' stop,
    Train.train_step Harness.scheduler_step Harness.train_batch Harness.c5
      (Train.init 0%nat 0) (Harness.batch 4 0.25) = Ok (st', stop) /\
    Train.avg_loss st' = 4%float.
Proof.
  destruct (smoothed_loss_update Harness.scheduler_step Harness.train_batch
              Harness.c5 2 3 4) as [Hfirst _]; [harness_ready|].
  destruct (Hfirst 0%nat 0 (Harness.batch 4 0.25)) as (st' & stop & Hstep & Havg);
    [harness_sized|].
  exists st', stop. split; [exact Hstep | exact Havg].
Defined.




Section ConfigFacts.
Import Config.
Variable super_check_values : BaseEncoderConfig -> result unit.

Local Abbreviation check_values := (Config.check_values super_check_values).

(** C5. For a configuration whose [model_params] holds an integer
    [input_dim]: when it differs from [audio.num_mels], [check_values]
    fails, and once the inherited checks and the reading of the fields have
    passed the failure is the assertion on the dimensions (the
    configuration error of this condition); when it equals
    [audio.num_mels], the condition passes: [check_values] succeeds
    whenever the inherited checks pass and the mandatory fields are set.
    [check_values] reads the configuration only. *)
Theorem check_values_input_dim (c : BaseEncoderConfig) (input_dim : Z) :
  model_params c !! "input_dim" = Some (PInt input_dim) ->
  (input_dim <> num_mels (audio c) ->
   (exists e, check_values c = Raise e) /\
   (super_check_values c = Ok tt -> asdict c = Ok c ->
    check_values c = Raise (AssertionError dimension_message))) /\
  (input_dim = num_mels (audio c) ->
   check_values c
   = (let* _ := super_check_values c in let* _ := asdict c in Ok tt) /\
   (super_check_values c = Ok tt -> asdict c = Ok c ->
    check_values c = Ok tt)).
Proof.
  intros Hdim. unfold Config.check_values. split.
  - intros Hne. split.
    + destruct (super_check_values c) as [[]|e]; simpl; [|eauto].
      destruct (asdict c) as [d|e] eqn:Hd; simpl; [|eauto].
      assert (d = c) as ->.
      { unfold asdict in Hd.
        destruct (num_classes_in_batch c); simpl in Hd; [|discriminate].
        destruct (num_utter_per_class c); simpl in Hd; [|discriminate].
        destruct (num_loader_workers c); simpl in Hd; [|discriminate].
        congruence. }
      rewrite Hdim. simpl. rewrite bool_decide_eq_false_2 by exact Hne. eauto.
    + intros -> ->. simpl. rewrite Hdim. simpl.
      rewrite bool_decide_eq_false_2 by exact Hne. reflexivity.
  - intros Heq. split.
    + destruct (super_check_values c) as [[]|e]; simpl; [|reflexivity].
      destruct (asdict c) as [d|e] eqn:Hd; simpl; [|reflexivity].
      assert (d = c) as ->.
      { unfold asdict in Hd.
        destruct (num_classes_in_batch c); simpl in Hd; [|discriminate].
        destruct (num_utter_per_class c); simpl in Hd; [|discriminate].
        destruct (num_loader_workers c); simpl in Hd; [|discriminate].
        congruence. }
      rewrite Hdim. simpl. rewrite bool_decide_eq_true_2 by exact Heq. reflexivity.
    + intros -> ->. simpl. rewrite Hdim. simpl.
      rewrite bool_decide_eq_true_2 by exact Heq. reflexivity.
Qed.
End ConfigFacts.

Lemma check_values_input_dim_witness :
  Config.check_values (fun _ => Ok tt) Harness.c5 = Ok tt /\
  Config.check_values (fun _ => Ok tt) Harness.c5_narrow_audio
  = Raise (AssertionError Config.dimension_message).
Proof.
  split.
  - destruct (check_values_input_dim (fun _ => Ok tt) Harness.c5 80)
      as [_ Hpass]; [reflexivity|].
    destruct (Hpass eq_refl) as [_ Hok]. exact (Hok eq_refl eq_refl).
  - destruct (check_values_input_dim (fun _ => Ok tt) Harness.c5_narrow_audio 80)
      as [Hfail _]; [reflexivity|].
    destruct Hfail as [_ Hassert]; [discriminate|].
    exact (Hassert eq_refl eq_refl).
Defined.

Section MandatoryFields.
Import Config.
Context {Feature Label Model : Type}.
Variable scheduler_step : Model -> Model.
Variable train_batch :
  Model -> list Feature -> list Label -> Model * float * float.
Variable super_check_values : BaseEncoderConfig -> result unit.

Local Abbreviation check_values := (Config.check_values super_check_values).
Local Abbreviation train_step := (Train.train_step scheduler_step train_batch).

(** C9. The schema declares no default for [num_classes_in_batch],
    [num_utter_per_class] and [num_loader_workers]: in the declared defaults
    the three are unset.  A configuration that leaves any of them unset is
    in error, no default value is substituted: [check_values] fails, with
    the error of the unset field once the inherited checks have passed, and
    the training loop cannot take a step. *)
Theorem mandatory_batch_fields (a : BaseAudioConfig) (c : BaseEncoderConfig) :
  (num_classes_in_batch (defaults a) = None /\
   num_utter_per_class (defaults a) = None /\
   num_loader_workers (defaults a) = None) /\
  (num_classes_in_batch c = None \/ num_utter_per_class c = None
   \/ num_loader_workers c = None ->
   (exists e, check_values c = Raise e) /\
   (super_check_values c = Ok tt ->
    exists name,
      check_values c = Raise (AttributeError name) /\
      (name = "num_classes_in_batch" \/ name = "num_utter_per_class"
       \/ name = "num_loader_workers")) /\
   (forall st data, exists e, train_step c st data = Raise e)).
Proof.
  split; [repeat split|].
  intros Hunset. split; [|split].
  - unfold Config.check_values, asdict.
    destruct (super_check_values c) as [[]|e]; simpl; [|eauto].
    destruct (num_classes_in_batch c); simpl; [|eauto].
    destruct (num_utter_per_class c); simpl; [|eauto].
    destruct (num_loader_workers c); simpl; [|eauto].
    destruct Hunset as [H|[H|H]]; discriminate.
  - unfold Config.check_values, asdict. intros ->. simpl.
    destruct (num_classes_in_batch c); simpl; [|eauto].
    destruct (num_utter_per_class c); simpl; [|eauto 6].
    destruct (num_loader_workers c); simpl; [|eauto 6].
    destruct Hunset as [H|[H|H]]; discriminate.
  - intros st data. unfold Train.train_step.
    destruct (num_utter_per_class c) as [U|]; simpl; [|eauto].
    destruct (num_classes_in_batch c) as [C|]; simpl; [|eauto].
    destruct (Regroup.regroup U C (Train.labels data)); simpl; [|eauto].
    destruct (Regroup.regroup_rows U C (Train.inputs data)); simpl; [|eauto].
    destruct (train_batch _ _ _) as [[m loss] grad_norm].
    destruct (num_loader_workers c); simpl; [|eauto].
    destruct Hunset as [H|[H|H]]; discriminate.
Qed.
End MandatoryFields.

Lemma mandatory_batch_fields_witness :
  (exists e,
     Config.check_values (fun _ => Ok tt)
       (Harness.config 5 1000 (Some 3) None (Some 4)) = Raise e) /\
  (exists e,
     Harness.train (Harness.config 5 1000 (Some 3) None (Some 4)) 0%nat
       Harness.seven_batches 0 = Raise e).
Proof.
  destruct (mandatory_batch_fields Harness.scheduler_step Harness.train_batch
              (fun _ => Ok tt) {| Config.num_mels := 80 |}
              (Harness.config 5 1000 (Some 3) None (Some 4))) as [_ Hunset].
  destruct Hunset as (Hraise & _ & Hstep); [right; left; reflexivity|].
  split; [exact Hraise|].
  destruct (Hstep (Train.init 0%nat 0) (Harness.batch 4 0.25)) as [e He].
  exists e. unfold Harness.train, Train.train, Train.run, Harness.seven_batches.
  cbn [Train.loop]. rewrite He. reflexivity.
Defined.

Section RestoreFacts.
Import Config Main.
Implicit Types (own sd : gmap string tensor) (k : string).

Lemma load_state_dict_lookup own sd k :
  (load_state_dict own sd).1 !! k = copy_param sd k <$> own !! k.
Proof.
  unfold load_state_dict. simpl. rewrite map_lookup_imap.
  destruct (own !! k); reflexivity.
Qed.

Lemma copy_param_shape sd k (t : tensor) : shape (copy_param sd k t) = shape t.
Proof.
  unfold copy_param, same_shape. destruct (sd !! k) as [v|]; [|reflexivity].
  case_bool_decide; [assumption | reflexivity].
Qed.

Lemma copy_param_idemp sd k (t : tensor) :
  copy_param sd k (copy_param sd k t) = copy_param sd k t.
Proof.
  unfold copy_param, same_shape. destruct (sd !! k) as [v|]; [|reflexivity].
  destruct (bool_decide (shape v = shape t)) eqn:H1.
  - rewrite bool_decide_eq_true_2 by reflexivity. reflexivity.
  - rewrite H1. reflexivity.
Qed.

Lemma set_init_dict_lookup own sd c k :
  set_init_dict own sd c !! k = copy_param sd k <$> own !! k.
Proof.
  unfold set_init_dict, copy_param, loadable_in.
  rewrite lookup_union, map_lookup_filter.
  destruct (sd !! k) as [v|], (own !! k) as [t|] eqn:Hown; simpl;
    rewrite ?Hown; try reflexivity.
  destruct (same_shape v t); reflexivity.
Qed.

(** loading the dict built by the partial load is accepted by the strict
    check *)
Lemma load_set_init_dict own sd c :
  (load_state_dict own (set_init_dict own sd c)).2 = None.
Proof.
  unfold load_state_dict. simpl.
  rewrite bool_decide_eq_true_2, bool_decide_eq_true_2; [reflexivity | |].
  - intros k t Hk. unfold loadable.
    rewrite set_init_dict_lookup, Hk. simpl. unfold same_shape.
    apply bool_decide_eq_true_2, copy_param_shape.
  - apply set_eq. intros k. rewrite !elem_of_dom, set_init_dict_lookup.
    destruct (own !! k); simpl; split; intros [? ?]; eauto; discriminate.
Qed.

Lemma partial_load_ok c ms ck sd :
  ck_model ck = Some sd ->
  exists ms',
    partial_load c ms ck = Ok ms' /\
    criterion_state ms' = criterion_state ms /\
    forall k, model_state ms' !! k = copy_param sd k <$> model_state ms !! k.
Proof.
  intros Hsd. unfold partial_load. rewrite Hsd. cbn [subscript bind].
  pose proof (load_set_init_dict (model_state ms) sd c) as Hnone.
  pose proof (load_state_dict_lookup (model_state ms)
                (set_init_dict (model_state ms) sd c)) as Hlook.
  destruct (load_state_dict _ _) as [m err]. cbn [fst snd] in *. subst err.
  eexists. split; [reflexivity|]. simpl. split; [reflexivity|].
  intros k. rewrite Hlook.
  destruct (model_state ms !! k) as [t|] eqn:Ht; simpl; [|reflexivity].
  f_equal. unfold copy_param at 1.
  rewrite set_init_dict_lookup, Ht. simpl.
  unfold same_shape. rewrite bool_decide_eq_true_2; [reflexivity|].
  apply copy_param_shape.
Qed.

(** a checkpoint that has a model entry and a step is restored without an
    exception, whatever its parameters are *)
Lemma restore_ok c ms param_groups ck sd step :
  ck_model ck = Some sd -> ck_step ck = Some step ->
  exists ms',
    restore c ms param_groups ck = Ok (ms', reset_lr c param_groups, step) /\
    (forall k, model_state ms' !! k = copy_param sd k <$> model_state ms !! k) /\
    (criterion_state ms' = criterion_state ms
     \/ exists csd, ck_criterion ck = Some csd /\
          forall k, criterion_state ms' !! k
                    = copy_param csd k <$> criterion_state ms !! k).
Proof.
  intros Hsd Hstep. unfold restore, strict_load. rewrite Hsd, Hstep.
  cbn [subscript bind].
  pose proof (load_state_dict_lookup (model_state ms) sd) as Hm.
  destruct (load_state_dict (model_state ms) sd) as [m [e|]] eqn:Hload; simpl in Hm.
  - (* the strict load of the model raised: RuntimeError, caught *)
    assert (e = RuntimeError) as ->.
    { unfold load_state_dict in Hload. destruct (_ && _); congruence. }
    simpl.
    destruct (partial_load_ok c
                {| model_state := m; criterion_state := criterion_state ms |}
                ck sd Hsd) as (ms' & Hpl & Hcr & Hmod).
    rewrite Hpl. simpl. exists ms'. split; [reflexivity|]. split.
    + intros k. rewrite Hmod. simpl. rewrite Hm.
      destruct (model_state ms !! k); simpl; [|reflexivity].
      rewrite copy_param_idemp. reflexivity.
    + left. exact Hcr.
  - (* the model was loaded strictly *)
    destruct (ck_criterion ck) as [csd|] eqn:Hcsd.
    + pose proof (load_state_dict_lookup (criterion_state ms) csd) as Hc.
      destruct (load_state_dict (criterion_state ms) csd) as [cr [e|]] eqn:Hcload;
        simpl in Hc.
      * assert (e = RuntimeError) as ->.
        { unfold load_state_dict in Hcload. destruct (_ && _); congruence. }
        simpl.
        destruct (partial_load_ok c
                    {| model_state := m; criterion_state := cr |}
                    ck sd Hsd) as (ms' & Hpl & Hcr & Hmod).
        rewrite Hpl. simpl. exists ms'. split; [reflexivity|]. split.
        -- intros k. rewrite Hmod. simpl. rewrite Hm.
           destruct (model_state ms !! k); simpl; [|reflexivity].
           rewrite copy_param_idemp. reflexivity.
        -- right. exists csd. split; [reflexivity|].
           intros k. rewrite Hcr. simpl. apply Hc.
      * simpl. eexists. split; [reflexivity|]. simpl. split; [exact Hm|].
        right. exists csd. split; [reflexivity | exact Hc].
    + simpl. eexists. split; [reflexivity|]. simpl. split; [exact Hm|].
      left. reflexivity.
Qed.

Lemma reset_lr_all c (param_groups : list param_group) :
  Forall (fun group => group_lr group = lr c) (reset_lr c param_groups).
Proof. unfold reset_lr. apply Forall_map, Forall_forall. reflexivity. Qed.

(** C6. Restoring from a checkpoint that carries a model entry and a step
    never raises, whatever the names and shapes of its parameters (and of
    its criterion parameters) are.  Afterwards every model parameter holds
    the checkpoint's value when the checkpoint has a parameter of that name
    and shape, and its freshly initialized value otherwise; no parameter is
    added or dropped.  Every criterion parameter holds either its fresh
    value or the value of a checkpoint criterion parameter of the same name
    and shape. *)
Theorem restore_partial_load (c : BaseEncoderConfig) (ms : modules)
    (param_groups : list param_group) (ck : checkpoint)
    (sd : gmap string tensor) (step : Z) :
  ck_model ck = Some sd -> ck_step ck = Some step ->
  exists ms' groups',
    restore c ms param_groups ck = Ok (ms', groups', step) /\
    (forall k, model_state ms !! k = None -> model_state ms' !! k = None) /\
    (forall k (fresh : tensor), model_state ms !! k = Some fresh ->
       model_state ms' !! k
       = Some (match sd !! k with
               | Some v => if bool_decide (shape v = shape fresh) then v else fresh
               | None => fresh
               end)) /\
    (forall k, criterion_state ms !! k = None ->
       criterion_state ms' !! k = None) /\
    (forall k (fresh : tensor), criterion_state ms !! k = Some fresh ->
       criterion_state ms' !! k = Some fresh
       \/ exists csd v,
            ck_criterion ck = Some csd /\ csd !! k = Some v /\
            shape v = shape fresh /\ criterion_state ms' !! k = Some v).
Proof.
  intros Hsd Hstep.
  destruct (restore_ok c ms param_groups ck sd step Hsd Hstep)
    as (ms' & Hr & Hm & Hc).
  exists ms', (reset_lr c param_groups). split; [exact Hr|].
  repeat split.
  - intros k Hk. rewrite Hm, Hk. reflexivity.
  - intros k fresh Hk. rewrite Hm, Hk. reflexivity.
  - intros k Hk. destruct Hc as [->|(csd & _ & Hc)]; [exact Hk|].
    rewrite Hc, Hk. reflexivity.
  - intros k fresh Hk. destruct Hc as [->|(csd & Hcsd & Hc)]; [left; exact Hk|].
    rewrite Hc, Hk. simpl. unfold copy_param, same_shape.
    destruct (csd !! k) as [v|] eqn:Hv; [|left; reflexivity].
    case_bool_decide as Hs; [|left; reflexivity].
    right. exists csd, v. auto.
Qed.

Section MainFacts.
Context {Feature Label Model : Type}.
Variable scheduler_step : Model -> Model.
Variable train_batch :
  Model -> list Feature -> list Label -> Model * float * float.
Variable load_fsspec : string -> result checkpoint.
Variable fresh_model : gmap string tensor.
Variable fresh_criterion : criterion_kind -> gmap string tensor.
Variable train_data_loader : list (@Train.item Feature Label).
Variable live : modules -> list param_group -> option Z -> Model.

Local Abbreviation main :=
  (Main.main scheduler_step train_batch load_fsspec fresh_model
     fresh_criterion train_data_loader live).
Local Abbreviation train := (Train.train scheduler_step train_batch).

End MainFacts.
End RestoreFacts.

Lemma restore_partial_load_witness :
  exists ms' groups',
    Main.restore Harness.c5 Harness.fresh_modules Harness.stale_groups
      Harness.stored = Ok (ms', groups', 1200) /\
    Main.model_state ms' !! "lstm.weight" = Some (Harness.param [2; 3] 7%float) /\
    Main.model_state ms' !! "proj.bias" = Some (Harness.param [4] 0.125%float) /\
    Main.model_state ms' !! "old.layer" = None.
Proof.
  destruct (restore_partial_load Harness.c5 Harness.fresh_modules
              Harness.stale_groups Harness.stored Harness.stored_model 1200
              eq_refl eq_refl)
    as (ms' & groups' & Hr & Hnone & Hsome & _).
  exists ms', groups'. split; [exact Hr|].
  split; [|split].
  - rewrite (Hsome "lstm.weight" (Harness.param [2; 3] 0.5%float)) by reflexivity.
    reflexivity.
  - rewrite (Hsome "proj.bias" (Harness.param [4] 0.125%float)) by reflexivity.
    reflexivity.
  - apply Hnone. reflexivity.
Defined.


(** ** Further properties of the regrouping *)

Section RegroupMore.
Context {A : Type}.
Import Regroup.

Lemma transpose_nil_rows (l : list A) :
  zip_with cons l (replicate (length l) []) = map (fun x => [x]) l.
Proof. induction l as [|x l IH]; simpl; [reflexivity | rewrite IH; reflexivity]. Qed.

Lemma concat_singletons (l : list A) : concat (map (fun x => [x]) l) = l.
Proof. induction l as [|x l IH]; simpl; [reflexivity | rewrite IH; reflexivity]. Qed.

Lemma rows_of_singletons (l : list A) :
  rows_of (length l) 1 l = map (fun x => [x]) l.
Proof.
  induction l as [|x l IH]; simpl; [reflexivity|].
  rewrite drop_0, IH. reflexivity.
Qed.

Lemma transpose_singletons (l : list A) :
  transpose 1 (map (fun x => [x]) l) = [l].
Proof. induction l as [|x l IH]; simpl; [reflexivity | rewrite IH; reflexivity]. Qed.

(** With one utterance per class, or one class per batch, the grid has a
    single row or a single column and the regrouping leaves the batch in
    the order the sampler gave it. *)
Theorem regroup_single_row_or_column (l : list A) :
  regroup 1 (Z.of_nat (length l)) l = Ok l /\
  regroup (Z.of_nat (length l)) 1 l = Ok l.
Proof.
  split.
  - rewrite regroup_ok by lia.
    change (Z.to_nat 1) with 1%nat. rewrite Nat2Z.id. simpl.
    rewrite firstn_all, transpose_nil_rows, concat_singletons. reflexivity.
  - rewrite regroup_ok by lia.
    change (Z.to_nat 1) with 1%nat. rewrite Nat2Z.id.
    rewrite rows_of_singletons, transpose_singletons. simpl.
    rewrite app_nil_r. reflexivity.
Qed.

Lemma zip_with_cons_replicate (n : nat) (classes : list A) :
  zip_with cons classes (map (replicate n) classes)
  = map (replicate (S n)) classes.
Proof.
  induction classes as [|x classes IH]; simpl; [reflexivity|].
  rewrite IH. reflexivity.
Qed.

Lemma transpose_replicate (n : nat) (classes : list A) :
  transpose (length classes) (replicate n classes)
  = map (replicate n) classes.
Proof.
  induction n as [|n IH]; simpl.
  - induction classes as [|x classes IH]; simpl; [reflexivity | f_equal; exact IH].
  - rewrite IH. apply zip_with_cons_replicate.
Qed.

Lemma rect_replicate (n : nat) (classes : list A) :
  rect n (length classes) (replicate n classes).
Proof.
  split; [apply length_replicate|].
  apply Forall_replicate. reflexivity.
Qed.

(** The case the comment on line 83 describes, for any classes and any
    number of utterances: when the sampler lists the classes of the batch
    in the same order once per utterance ([c1, .., cC, c1, .., cC, ..]),
    the regrouped labels hold each class's utterances side by side
    ([c1, .., c1, c2, .., c2, ..]). *)
Theorem regroup_interleaved_to_grouped (utterances : nat) (classes : list A) :
  regroup (Z.of_nat utterances) (Z.of_nat (length classes))
    (concat (replicate utterances classes))
  = Ok (concat (map (replicate utterances) classes)).
Proof.
  pose proof (rect_replicate utterances classes) as Hrect.
  rewrite regroup_ok.
  - rewrite !Nat2Z.id. rewrite rows_of_concat by exact Hrect.
    rewrite transpose_replicate. reflexivity.
  - lia.
  - lia.
  - rewrite (length_concat_rect _ _ _ Hrect). lia.
Qed.

(** Lines 84-85 followed by the view of line 119: on a batch of
    [C * U] elements, [U, C > 0], the criterion receives a [C] x [U] grid
    whose row [j] is column [j] of the sampler's [U] x [C] grid, that is,
    the elements the sampler put at positions [j], [C + j], [2C + j], ... *)
Theorem group_outputs_of_regrouped (U C : Z) (l l' : list A) :
  0 < U -> 0 < C -> Z.of_nat (length l) = C * U ->
  regroup U C l = Ok l' ->
  exists grid,
    Train.group_outputs C l' = Ok grid /\
    grid = transpose (Z.to_nat C) (rows_of (Z.to_nat U) (Z.to_nat C) l) /\
    length grid = Z.to_nat C /\
    forall (i j : nat) row,
      Z.of_nat i < U -> grid !! j = Some row ->
      row !! i = l !! (i * Z.to_nat C + j)%nat.
Proof.
  intros HU HC Hl Hre.
  pose proof (regroup_length _ _ _ _ Hre) as Hlen.
  rewrite regroup_ok in Hre by lia. injection Hre as <-.
  assert (Hn : length l = (Z.to_nat U * Z.to_nat C)%nat) by lia.
  pose proof (rows_of_rect _ _ _ Hn) as Hm.
  pose proof (transpose_rect _ _ _ Hm) as Ht.
  eexists. split; [|split; [reflexivity|split]].
  - unfold Train.group_outputs, py_floordiv.
    rewrite decide_False by lia. simpl.
    rewrite Hlen, Hl.
    replace (C * U / C) with U by (rewrite Z.mul_comm, Z.div_mul; lia).
    rewrite decide_False by lia.
    rewrite view_ok by lia.
    rewrite rows_of_concat by exact Ht. reflexivity.
  - apply Ht.
  - intros i j row Hi Hrow.
    rewrite (transpose_lookup _ _ _ _ _ Hrow) by (destruct Hm; lia).
    assert (Hj : (j < Z.to_nat C)%nat).
    { destruct Ht as [Hlt _]. apply lookup_lt_Some in Hrow. lia. }
    rewrite rows_of_lookup by lia. simpl.
    rewrite lookup_take, decide_True by lia. rewrite lookup_drop. reflexivity.
Qed.
End RegroupMore.

Lemma group_outputs_of_regrouped_witness :
  exists grid,
    Train.group_outputs 3 [3; 3; 2; 2; 1; 1] = Ok grid /\
    grid = [[3; 3]; [2; 2]; [1; 1]].
Proof.
  destruct (group_outputs_of_regrouped 2 3 [3; 2; 1; 3; 2; 1] [3; 3; 2; 2; 1; 1])
    as (grid & Hg & Heq & _); [lia | lia | reflexivity | reflexivity |].
  exists grid. split; [exact Hg | exact Heq].
Defined.

(** ** Further properties of the training loop *)

Section TrainMore.
Context {Feature Label Model : Type}.
Variable scheduler_step : Model -> Model.
Variable train_batch :
  Model -> list Feature -> list Label -> Model * float * float.
Variable c : Config.BaseEncoderConfig.
Import Config Train.

Local Abbreviation state := (@Train.state Model).
Local Abbreviation item := (@Train.item Feature Label).
Local Abbreviation train_step := (Train.train_step scheduler_step train_batch c).
Local Abbreviation loop := (Train.loop scheduler_step train_batch c).
Local Abbreviation run := (Train.run scheduler_step train_batch c).
Local Abbreviation train := (Train.train scheduler_step train_batch c).

Implicit Types (st : state) (data : item).

Lemma loop_counts data_loader : forall st st',
  loop st data_loader = Ok st' ->
  global_step st' - global_step st = Z.of_nat (batches st' - batches st) /\
  (batches st <= batches st' <= batches st + length data_loader)%nat /\
  (data_loader <> [] -> (batches st < batches st')%nat) /\
  ((batches st' < batches st + length data_loader)%nat ->
   global_step st' >= max_train_step c).
Proof.
  induction data_loader as [|data rest IH]; intros st st' Hloop; simpl in Hloop.
  - injection Hloop as <-. simpl. repeat split; try lia; try congruence.
  - destruct (train_step st data) as [[st1 stop]|e] eqn:Hstep; simpl in Hloop;
      [|discriminate].
    destruct (train_step_counts _ _ _ _ _ _ _ Hstep) as (Hgs & Hb & Hstop).
    destruct stop.
    + injection Hloop as <-. simpl.
      symmetry in Hstop. apply bool_decide_eq_true_1 in Hstop.
      repeat split; try lia.
    + destruct (IH _ _ Hloop) as (Hgs' & Hb' & _ & Hearly). simpl.
      repeat split; lia.
Qed.

(** Whatever the configuration and the batches, a call that returns has
    advanced [global_step] by the number of batches it took: at least one
    when the loader is not empty, at most the length of the loader, and
    fewer than the loader holds only when [max_train_step] was reached. *)
Theorem train_returns_within_loader (m : Model) data_loader (g0 : Z)
    (avg : float) (gs : Z) :
  train m data_loader g0 = Ok (avg, gs) ->
  g0 <= gs <= g0 + Z.of_nat (length data_loader) /\
  (data_loader <> [] -> g0 < gs) /\
  (gs < g0 + Z.of_nat (length data_loader) -> gs >= max_train_step c).
Proof.
  unfold Train.train, Train.run.
  destruct (loop (init m g0) data_loader) as [st|e] eqn:Hloop; simpl;
    [|discriminate].
  intros [= <- <-].
  destruct (loop_counts _ _ _ Hloop) as (Hgs & Hb & Hne & Hearly).
  simpl in *. repeat split; try lia.
  intros H. specialize (Hne H). lia.
Qed.

Lemma train_step_ill_sized (U C W : Z) st data :
  loop_ready c U C W -> ~ well_sized U C data ->
  train_step st data = Raise RuntimeError.
Proof.
  intros (HU & HC & HW & HUpos & HCpos & _) Hbad.
  unfold Train.train_step. rewrite HU, HC. simpl.
  unfold Regroup.regroup at 1, Regroup.view.
  destruct (decide (0 <= U /\ 0 <= C /\ Z.of_nat (length (labels data)) = U * C))
    as [(_ & _ & Hlab)|_]; simpl; [|reflexivity].
  unfold Regroup.regroup_rows. rewrite decide_False by lia.
  unfold Regroup.regroup, Regroup.view.
  destruct (decide (0 <= U /\ 0 <= C /\ Z.of_nat (length (inputs data)) = U * C))
    as [(_ & _ & Hin)|_]; simpl; [|reflexivity].
  exfalso. apply Hbad. split; lia.
Qed.


(** A cadence of zero. With [steps_plot_stats = 0] or [print_step = 0] the
    first step of a call raises [ZeroDivisionError] (lines 137 and 152).
    With [save_step = 0] it raises on the first step that leaves
    [global_step] below [max_train_step]; the step that reaches
    [max_train_step] does not evaluate the division (line 162) and the
    call returns. *)
Theorem train_zero_cadence (U C W : Z) (m : Model) (data : item)
    (rest : list item) (g0 : Z) :
  num_utter_per_class c = Some U -> num_classes_in_batch c = Some C ->
  num_loader_workers c = Some W -> 0 < U -> 0 < C ->
  well_sized U C data ->
  (steps_plot_stats c = 0 \/ print_step c = 0 ->
   train m (data :: rest) g0 = Raise ZeroDivisionError) /\
  (steps_plot_stats c <> 0 -> print_step c <> 0 -> save_step c = 0 ->
   (g0 + 1 < max_train_step c ->
    train m (data :: rest) g0 = Raise ZeroDivisionError) /\
   (g0 + 1 >= max_train_step c ->
    exists avg, train m (data :: rest) g0 = Ok (avg, g0 + 1))).
Proof.
  intros HU HC HW HUpos HCpos [Hin Hlab].
  assert (Hstep : forall st,
    train_step st data
    = let gs := global_step st + 1 in
      let mdl := if lr_decay c then scheduler_step (model st) else model st in
      let '(mdl, loss, grad_norm) :=
        train_batch mdl (Regroup.regrouped U C (inputs data))
          (Regroup.regrouped U C (labels data)) in
      let avg := smooth_loss (avg_loss st) loss in
      let alt := smooth_loader_time (effective_workers W) (avg_loader_time st)
                   (loader_time data) in
      let* r := py_mod gs (steps_plot_stats c) in
      let plotted := if decide (r = 0) then [TrainStats gs avg alt] else [] in
      let* r := py_mod gs (print_step c) in
      let printed := if decide (r = 0) then [Printed gs loss avg] else [] in
      let* trigger :=
        if decide (gs >= max_train_step c) then Ok true
        else let* r := py_mod gs (save_step c) in Ok (bool_decide (r = 0)) in
      if trigger then
        let '(saved, best) := save_best_model mdl avg (best_loss st) gs in
        Ok ({| model := mdl; global_step := gs;
               epoch_time := (epoch_time st + step_time data)%float;
               best_loss := best; avg_loss := avg; avg_loss_all := 0%float;
               avg_loader_time := alt;
               effects := saved ++ printed ++ plotted ++ effects st;
               batches := S (batches st) |},
            bool_decide (gs >= max_train_step c))
      else
        Ok ({| model := mdl; global_step := gs;
               epoch_time := (epoch_time st + step_time data)%float;
               best_loss := best_loss st; avg_loss := avg;
               avg_loss_all := (avg_loss_all st + avg)%float;
               avg_loader_time := alt;
               effects := printed ++ plotted ++ effects st;
               batches := S (batches st) |},
            false)).
  { intros st. unfold Train.train_step. rewrite HU, HC, HW. simpl.
    rewrite (regroup_ok U C (labels data)) by lia. simpl.
    unfold Regroup.regroup_rows. rewrite decide_False by lia.
    rewrite (regroup_ok U C (inputs data)) by lia. simpl.
    reflexivity. }
  unfold Train.train, Train.run. simpl Train.loop. rewrite Hstep. clear Hstep.
  simpl. destruct (train_batch _ _ _) as [[mdl loss] grad_norm].
  unfold py_mod. split.
  - intros [H0|H0].
    + rewrite H0. reflexivity.
    + destruct (decide (steps_plot_stats c = 0)); [reflexivity|]. simpl.
      rewrite H0. reflexivity.
  - intros Hplot Hprint Hsave.
    rewrite (decide_False (P := steps_plot_stats c = 0)) by exact Hplot. simpl.
    rewrite (decide_False (P := print_step c = 0)) by exact Hprint. simpl.
    split; intros Hmax.
    + rewrite (decide_False (P := _ >= _)) by lia. rewrite Hsave. reflexivity.
    + rewrite (decide_True (P := _ >= _)) by exact Hmax. simpl.
      unfold save_best_model. rewrite bool_decide_eq_true_2 by exact Hmax.
      destruct (PrimFloat.ltb _ _); simpl; eexists; reflexivity.
Qed.

Lemma train_step_log (U C W : Z) st data :
  loop_ready c U C W -> well_sized U C data ->
  exists st',
    train_step st data
    = Ok (st', bool_decide (global_step st + 1 >= max_train_step c)) /\
    global_step st' = global_step st + 1 /\
    batches st' = S (batches st) /\
    printed_steps st'
    = printed_steps st
      ++ filter (fun s => s mod print_step c = 0) [global_step st + 1] /\
    plotted_steps st'
    = plotted_steps st
      ++ filter (fun s => s mod steps_plot_stats c = 0) [global_step st + 1].
Proof.
  intros (HU & HC & HW & HUpos & HCpos & Hplot & Hprint & Hsave) [Hin Hlab].
  unfold Train.train_step.
  rewrite HU, HC, HW. simpl.
  rewrite (regroup_ok U C (labels data)) by lia. simpl.
  unfold Regroup.regroup_rows. rewrite decide_False by lia.
  rewrite (regroup_ok U C (inputs data)) by lia. simpl.
  destruct (train_batch _ _ _) as [[m loss] grad_norm]. simpl.
  unfold py_mod. rewrite !(decide_False (P := _ = 0)) by assumption. simpl.
  rewrite !filter_cons, !filter_nil.
  unfold printed_steps, plotted_steps, save_best_model.
  set (gs := global_step st + 1).
  destruct (decide (gs >= max_train_step c)) as [Hmax|Hmax]; simpl.
  - rewrite (bool_decide_eq_true_2 (_ >= _)) by exact Hmax.
    destruct (PrimFloat.ltb _ _); eexists; (split; [reflexivity|]); simpl;
      repeat split; repeat case_decide; simpl;
      rewrite ?omap_app, ?rev_app_distr, ?app_nil_r; reflexivity.
  - rewrite (bool_decide_eq_false_2 (_ >= _)) by exact Hmax.
    case_bool_decide; [destruct (PrimFloat.ltb _ _)|];
      eexists; (split; [reflexivity|]); simpl;
      repeat split; repeat case_decide; simpl;
      rewrite ?omap_app, ?rev_app_distr, ?app_nil_r; reflexivity.
Qed.

(** Over a whole call that raises nothing, a progress line is printed on
    exactly the steps taken that are multiples of [print_step], and the
    statistics go to the dashboard on exactly those that are multiples of
    [steps_plot_stats], each once and in order. *)
Theorem train_log_cadence (U C W : Z) (m : Model) data_loader (g0 : Z) :
  loop_ready c U C W -> Forall (well_sized U C) data_loader ->
  exists st,
    run m data_loader g0 = Ok st /\
    printed_steps st
    = filter (fun s => s mod print_step c = 0)
        (seqZ (g0 + 1) (Z.of_nat (batches st))) /\
    plotted_steps st
    = filter (fun s => s mod steps_plot_stats c = 0)
        (seqZ (g0 + 1) (Z.of_nat (batches st))).
Proof.
  intros Hready Hsized. unfold Train.run.
  assert (Hloop : forall st,
    exists st',
      loop st data_loader = Ok st' /\
      (batches st <= batches st')%nat /\
      printed_steps st'
      = printed_steps st
        ++ filter (fun s => s mod print_step c = 0)
             (seqZ (global_step st + 1) (Z.of_nat (batches st' - batches st))) /\
      plotted_steps st'
      = plotted_steps st
        ++ filter (fun s => s mod steps_plot_stats c = 0)
             (seqZ (global_step st + 1) (Z.of_nat (batches st' - batches st)))).
  { induction Hsized as [|data rest Hdata _ IH]; intros st.
    - exists st. simpl. rewrite Nat.sub_diag. simpl. rewrite !app_nil_r. auto.
    - destruct (train_step_log U C W st data Hready Hdata)
        as (st1 & Hstep & Hgs & Hb & Hpr & Hpl).
      simpl. rewrite Hstep. simpl.
      case_bool_decide.
      + exists st1. rewrite Hb.
        replace (S (batches st) - batches st)%nat with 1%nat by lia.
        repeat split; [lia | exact Hpr | exact Hpl].
      + destruct (IH st1) as (st' & Hl & Hle & Hpr' & Hpl').
        exists st'. split; [exact Hl|]. split; [lia|].
        replace (batches st' - batches st)%nat
          with (S (batches st' - batches st1)) by lia.
        rewrite seqZ_cons by lia.
        rewrite Hpr', Hpl', Hpr, Hpl, Hgs. rewrite <- !app_assoc.
        rewrite <- !filter_app. simpl.
        replace (Z.pred (Z.of_nat (S (batches st' - batches st1))))
          with (Z.of_nat (batches st' - batches st1)) by lia.
        replace (Z.succ (global_step st + 1)) with (global_step st + 1 + 1) by lia.
        split; reflexivity. }
  destruct (Hloop (init m g0)) as (st & Hl & _ & Hpr & Hpl).
  exists st. split; [exact Hl|].
  rewrite Hpr, Hpl. simpl. rewrite Nat.sub_0_r. split; reflexivity.
Qed.

Lemma train_step_without_decay (other : Model -> Model) st data :
  lr_decay c = false ->
  Train.train_step other train_batch c st data = train_step st data.
Proof. intros H. unfold Train.train_step. rewrite H. reflexivity. Qed.

(** With [lr_decay] off the loop never calls [scheduler.step()] (the
    scheduler is [None] then, line 228): the call behaves the same
    whatever the scheduler would do. *)
Theorem train_without_decay_ignores_scheduler (other : Model -> Model)
    (m : Model) data_loader (g0 : Z) :
  lr_decay c = false ->
  Train.run other train_batch c m data_loader g0 = run m data_loader g0 /\
  Train.train other train_batch c m data_loader g0 = train m data_loader g0.
Proof.
  intros Hoff.
  assert (Hloop : forall st,
            Train.loop other train_batch c st data_loader = loop st data_loader).
  { induction data_loader as [|data rest IH]; intros st; simpl; [reflexivity|].
    rewrite train_step_without_decay by exact Hoff.
    destruct (train_step st data) as [[st1 stop]|e]; simpl; [|reflexivity].
    destruct stop; [reflexivity | apply IH]. }
  unfold Train.train, Train.run. rewrite Hloop. split; reflexivity.
Qed.

(** Once the budget of steps is spent the loop does not look at the rest
    of the loader: whatever follows the batches it takes, well sized or
    not, the call ends in the same state. *)
Theorem train_ignores_batches_past_budget (U C W : Z) (m : Model)
    (data_loader extra : list item) (g0 : Z) :
  loop_ready c U C W -> Forall (well_sized U C) data_loader ->
  (budget c g0 <= length data_loader)%nat ->
  run m (data_loader ++ extra) g0 = run m data_loader g0 /\
  train m (data_loader ++ extra) g0 = train m data_loader g0.
Proof.
  intros Hready Hsized Hbudget.
  assert (Hloop : forall st,
            (budget c (global_step st) <= length data_loader)%nat ->
            loop st (data_loader ++ extra) = loop st data_loader).
  { clear Hbudget.
    induction Hsized as [|data rest Hdata _ IH]; intros st Hb.
    - unfold budget in Hb. simpl in Hb. lia.
    - destruct (train_step_ok scheduler_step train_batch c U C W st data
                  Hready Hdata) as (st1 & Hstep & Hgs & _).
      simpl. rewrite Hstep. simpl.
      case_bool_decide as Hmax; [reflexivity|].
      apply IH. unfold budget in *. simpl in Hb. rewrite Hgs. lia. }
  unfold Train.train, Train.run. rewrite Hloop by exact Hbudget.
  split; reflexivity.
Qed.
End TrainMore.

(** ** Further properties of the configuration check *)

Section ConfigMore.
Import Config.
Variable super_check_values : BaseEncoderConfig -> result unit.

Local Abbreviation check_values := (Config.check_values super_check_values).

(** [check_values] accepts exactly the configurations that pass the
    inherited checks, have the three batch fields set, and whose
    [model_params] holds an [input_dim] equal to [audio.num_mels].  Among
    its own failures the unset field is reported first, then a missing
    [input_dim] key ([KeyError]), then the dimension mismatch. *)
Theorem check_values_accepts_exactly (c : BaseEncoderConfig) :
  (check_values c = Ok tt <->
   super_check_values c = Ok tt /\
   is_Some (num_classes_in_batch c) /\ is_Some (num_utter_per_class c) /\
   is_Some (num_loader_workers c) /\
   exists v, model_params c !! "input_dim" = Some v /\
             py_eq_int v (num_mels (audio c)) = true) /\
  (super_check_values c = Ok tt ->
   is_Some (num_classes_in_batch c) -> is_Some (num_utter_per_class c) ->
   is_Some (num_loader_workers c) ->
   model_params c !! "input_dim" = None ->
   check_values c = Raise (KeyError "input_dim")).
Proof.
  unfold Config.check_values, asdict. split.
  - split.
    + destruct (super_check_values c) as [[]|e]; simpl; [|discriminate].
      destruct (num_classes_in_batch c); simpl; [|discriminate].
      destruct (num_utter_per_class c); simpl; [|discriminate].
      destruct (num_loader_workers c); simpl; [|discriminate].
      destruct (model_params c !! "input_dim") as [v|]; simpl; [|discriminate].
      destruct (py_eq_int v (num_mels (audio c))) eqn:Heq; [|discriminate].
      intros _. repeat split; eauto.
    + intros (Hs & [? HC] & [? HU] & [? HW] & v & Hv & Heq).
      rewrite Hs, HC, HU, HW. simpl. rewrite Hv. simpl.
      rewrite Heq. reflexivity.
  - intros Hs [? HC] [? HU] [? HW] Hnone.
    rewrite Hs, HC, HU, HW. simpl. rewrite Hnone. reflexivity.
Qed.
End ConfigMore.

Lemma check_values_accepts_exactly_witness :
  Config.check_values (fun _ => Ok tt)
    (Harness.config 5 1000 (Some 3) (Some 2) None)
  <> Ok tt.
Proof.
  destruct (check_values_accepts_exactly (fun _ => Ok tt)
              (Harness.config 5 1000 (Some 3) (Some 2) None)) as [[Hok _] _].
  intros H. destruct (Hok H) as (_ & _ & _ & [w Hw] & _). discriminate.
Defined.

(** ** Further properties of the restore *)

Section RestoreMore.
Import Config Main.
Implicit Types (own sd : gmap string tensor) (k : string).

Lemma strict_check_fits own sd :
  bool_decide (dom own = dom sd)
  && bool_decide (map_Forall (fun k t => loadable sd k t = true) own) = true
  <-> fits own sd.
Proof.
  rewrite andb_true_iff, !bool_decide_eq_true. unfold fits. split.
  - intros [Hdom Hall]. split; [exact Hdom|].
    intros k t v Hk Hv. specialize (Hall k t Hk).
    unfold loadable, same_shape in Hall. rewrite Hv in Hall.
    apply bool_decide_eq_true_1 in Hall. exact Hall.
  - intros [Hdom Hshape]. split; [exact Hdom|].
    intros k t Hk. unfold loadable, same_shape.
    assert (Hin : k ∈ dom sd) by (rewrite <- Hdom; apply elem_of_dom; eauto).
    apply elem_of_dom in Hin. destruct Hin as [v Hv]. rewrite Hv.
    apply bool_decide_eq_true_2. eauto.
Qed.

Lemma load_fitting own sd :
  fits own sd -> load_state_dict own sd = (sd, None).
Proof.
  intros Hfits. unfold load_state_dict.
  rewrite (proj2 (strict_check_fits own sd) Hfits).
  f_equal. apply map_eq. intros k. rewrite map_lookup_imap.
  destruct Hfits as [Hdom Hshape].
  destruct (own !! k) as [t|] eqn:Hk; simpl.
  - assert (Hin : k ∈ dom sd) by (rewrite <- Hdom; apply elem_of_dom; eauto).
    apply elem_of_dom in Hin. destruct Hin as [v Hv].
    unfold copy_param, same_shape. rewrite Hv.
    rewrite bool_decide_eq_true_2 by eauto. reflexivity.
  - symmetry. apply not_elem_of_dom. rewrite <- Hdom.
    apply not_elem_of_dom. exact Hk.
Qed.

Lemma load_not_fitting own sd :
  ~ fits own sd -> (load_state_dict own sd).2 = Some RuntimeError.
Proof.
  intros Hno. unfold load_state_dict. simpl.
  destruct (_ && _) eqn:Hb; [|reflexivity].
  exfalso. apply Hno, strict_check_fits, Hb.
Qed.

Lemma restore_without_model c ms (param_groups : list param_group) ck :
  ck_model ck = None ->
  restore c ms param_groups ck = Raise (KeyError "model").
Proof.
  intros Hnone. unfold restore, strict_load, partial_load.
  rewrite Hnone. reflexivity.
Qed.

Lemma restore_without_step c ms (param_groups : list param_group) ck :
  is_Some (ck_model ck) -> ck_step ck = None ->
  restore c ms param_groups ck = Raise (KeyError "step").
Proof.
  intros [sd Hsd] Hstep. unfold restore, strict_load. rewrite Hsd, Hstep.
  destruct (load_state_dict (model_state ms) sd) as [m [e|]] eqn:Hload.
  - assert (e = RuntimeError) as ->.
    { unfold load_state_dict in Hload. destruct (_ && _); congruence. }
    cbn [caught].
    destruct (partial_load_ok c
                {| model_state := m; criterion_state := criterion_state ms |}
                ck sd Hsd) as (ms' & Hpl & _).
    rewrite Hpl. reflexivity.
  - destruct (ck_criterion ck) as [csd|]; [|reflexivity].
    destruct (load_state_dict (criterion_state ms) csd) as [cr [e|]] eqn:Hcload;
      [|reflexivity].
    assert (e = RuntimeError) as ->.
    { unfold load_state_dict in Hcload. destruct (_ && _); congruence. }
    cbn [caught].
    destruct (partial_load_ok c
                {| model_state := m; criterion_state := cr |}
                ck sd Hsd) as (ms' & Hpl & _).
    rewrite Hpl. reflexivity.
Qed.

(** A checkpoint without a ["model"] entry is fatal although [KeyError] is
    caught: the handler reads [checkpoint["model"]] again.  A checkpoint
    with a model entry but no ["step"] raises [KeyError] on line 220,
    after the parameters were loaded, whatever they are. *)
Theorem restore_missing_entry (c : BaseEncoderConfig) (ms : modules)
    (param_groups : list param_group) (ck : checkpoint) :
  (ck_model ck = None ->
   restore c ms param_groups ck = Raise (KeyError "model")) /\
  (is_Some (ck_model ck) -> ck_step ck = None ->
   restore c ms param_groups ck = Raise (KeyError "step")).
Proof.
  split; [apply restore_without_model | apply restore_without_step].
Qed.

(** A checkpoint whose model entry has exactly the model's parameter names
    and shapes, and whose criterion entry (if any) has exactly the
    criterion's, is loaded in full: afterwards the model's state dict is
    the checkpoint's, and so is the criterion's. *)
Theorem restore_fitting_checkpoint (c : BaseEncoderConfig) (ms : modules)
    (param_groups : list param_group) (ck : checkpoint)
    (sd : gmap string tensor) (step : Z) :
  ck_model ck = Some sd -> ck_step ck = Some step ->
  fits (model_state ms) sd ->
  (forall csd, ck_criterion ck = Some csd -> fits (criterion_state ms) csd) ->
  restore c ms param_groups ck
  = Ok ({| model_state := sd;
           criterion_state := default (criterion_state ms) (ck_criterion ck) |},
        reset_lr c param_groups, step).
Proof.
  intros Hsd Hstep Hfits Hcrit. unfold restore, strict_load.
  rewrite Hsd, Hstep, (load_fitting _ _ Hfits).
  destruct (ck_criterion ck) as [csd|].
  - rewrite (load_fitting _ _ (Hcrit csd eq_refl)). reflexivity.
  - reflexivity.
Qed.

(** When the model entry of the checkpoint does not fit the model (a name
    missing on either side, or a shape that differs), the criterion is left
    as it was freshly built, even if the checkpoint holds a criterion entry
    that fits: the failed model load skips line 209 and the handler only
    reloads the model. *)
Theorem restore_mismatch_skips_criterion (c : BaseEncoderConfig) (ms : modules)
    (param_groups : list param_group) (ck : checkpoint)
    (sd : gmap string tensor) (step : Z) :
  ck_model ck = Some sd -> ck_step ck = Some step ->
  ~ fits (model_state ms) sd ->
  exists ms',
    restore c ms param_groups ck = Ok (ms', reset_lr c param_groups, step) /\
    criterion_state ms' = criterion_state ms.
Proof.
  intros Hsd Hstep Hno. unfold restore, strict_load. rewrite Hsd, Hstep.
  pose proof (load_not_fitting _ _ Hno) as Herr.
  destruct (load_state_dict (model_state ms) sd) as [m err]. simpl in Herr.
  subst err. cbn [caught].
  destruct (partial_load_ok c
              {| model_state := m; criterion_state := criterion_state ms |}
              ck sd Hsd) as (ms' & Hpl & Hcr & _).
  rewrite Hpl. exists ms'. split; [reflexivity | exact Hcr].
Qed.

Lemma reset_lr_idemp c (param_groups : list param_group) :
  reset_lr c (reset_lr c param_groups) = reset_lr c param_groups.
Proof.
  unfold reset_lr. rewrite map_map. apply map_ext. reflexivity.
Qed.

(** Restoring the same checkpoint a second time changes nothing in the
    model or in the optimizer's groups: every model parameter and every
    learning rate is as the first restore left it. *)
Theorem restore_twice (c : BaseEncoderConfig) (ms : modules)
    (param_groups : list param_group) (ck : checkpoint)
    (sd : gmap string tensor) (step : Z) :
  ck_model ck = Some sd -> ck_step ck = Some step ->
  exists ms' groups' ms'',
    restore c ms param_groups ck = Ok (ms', groups', step) /\
    restore c ms' groups' ck = Ok (ms'', groups', step) /\
    model_state ms'' = model_state ms'.
Proof.
  intros Hsd Hstep.
  destruct (restore_ok c ms param_groups ck sd step Hsd Hstep)
    as (ms' & Hr & Hm & _).
  destruct (restore_ok c ms' (reset_lr c param_groups) ck sd step Hsd Hstep)
    as (ms'' & Hr' & Hm' & _).
  exists ms', (reset_lr c param_groups), ms''.
  rewrite reset_lr_idemp in Hr'.
  split; [exact Hr|]. split; [exact Hr'|].
  apply map_eq. intros k. rewrite Hm', Hm.
  destruct (model_state ms !! k); simpl; [|reflexivity].
  rewrite copy_param_idemp. reflexivity.
Qed.
End RestoreMore.

(** ** Properties of the loader set-up, of [main] and of the script entry *)

Section SetupLoaderFacts.
Import Config Loader.
Context {ClassMap : Type}.
Variable get_num_classes : dataset_args -> Z.
Variable get_map_classid_to_classname : dataset_args -> ClassMap.
Variable c : BaseEncoderConfig.

Local Abbreviation setup_loader :=
  (Loader.setup_loader get_num_classes get_map_classid_to_classname c).

(** [setup_loader] for validation never returns: [dataset] is only
    assigned on the training branch, so the [return] of line 66 raises
    [UnboundLocalError], whatever the configuration.  For training it
    returns exactly when the three batch fields are set (otherwise the
    unset field is reported), and then asks the sampler for shuffled,
    complete batches of [num_classes_in_batch * num_utter_per_class]
    items, the size the views of the training loop require, and the loader
    for [num_loader_workers] workers on the training split. *)
Theorem setup_loader_outcome (verbose : bool) :
  setup_loader true verbose = Raise (UnboundLocalError "dataset") /\
  (is_ok (setup_loader false verbose) = true <->
   is_Some (num_utter_per_class c) /\ is_Some (num_classes_in_batch c) /\
   is_Some (num_loader_workers c)) /\
  (is_ok (setup_loader false verbose) = false ->
   exists name, setup_loader false verbose = Raise (AttributeError name)) /\
  (forall loader n names,
     setup_loader false verbose = Ok (loader, n, names) ->
     exists args U C W,
       loader = Some args /\
       num_utter_per_class c = Some U /\ num_classes_in_batch c = Some C /\
       num_loader_workers c = Some W /\
       batch_size (batch_sampler args) = C * U /\
       sampler_num_classes_in_batch (batch_sampler args) = C /\
       drop_last (batch_sampler args) = true /\
       shuffle (batch_sampler args) = true /\
       num_workers args = W /\
       meta_data (dataset args) = meta_data_train /\
       n = get_num_classes (dataset args) /\
       forall (Feature Label : Type) (data : @Train.item Feature Label),
         Z.of_nat (length (Train.inputs data)) = batch_size (batch_sampler args) ->
         Z.of_nat (length (Train.labels data)) = batch_size (batch_sampler args) ->
         Train.well_sized U C data).
Proof.
  unfold Loader.setup_loader, is_ok.
  split; [reflexivity|].
  destruct (num_utter_per_class c) as [U|]; simpl.
  2:{ repeat split; try discriminate; eauto.
      intros (H & _); destruct H; discriminate. }
  destruct (num_classes_in_batch c) as [C|]; simpl.
  2:{ repeat split; try discriminate; eauto.
      intros (_ & H & _); destruct H; discriminate. }
  destruct (num_loader_workers c) as [W|]; simpl.
  2:{ repeat split; try discriminate; eauto.
      intros (_ & _ & H); destruct H; discriminate. }
  repeat split; eauto; try discriminate.
  intros loader n names [= <- <- <-].
  eexists _, U, C, W. simpl. repeat split; assumption.
Qed.
End SetupLoaderFacts.

Section MainMore.
Import Config Main Script.
Context {Feature Label Model : Type}.
Variable scheduler_step : Model -> Model.
Variable train_batch :
  Model -> list Feature -> list Label -> Model * float * float.
Variable load_fsspec : string -> result checkpoint.
Variable fresh_model : gmap string tensor.
Variable fresh_criterion : criterion_kind -> gmap string tensor.
Variable train_data_loader : list (@Train.item Feature Label).
Variable live : modules -> list param_group -> option Z -> Model.

Local Abbreviation main :=
  (Main.main scheduler_step train_batch load_fsspec fresh_model
     fresh_criterion train_data_loader live).


Lemma main_returns (c : BaseEncoderConfig) (kind : criterion_kind)
    (U C W : Z) (restore_path : option string) :
  select_criterion c = Ok kind ->
  Train.loop_ready c U C W ->
  Forall (Train.well_sized U C) train_data_loader ->
  (truthy restore_path = false
   \/ exists p ck, restore_path = Some p /\ p <> "" /\
                   load_fsspec p = Ok ck /\
                   is_Some (ck_model ck) /\ is_Some (ck_step ck)) ->
  exists avg gs, main c restore_path = Ok (avg, gs).
Proof.
  intros Hkind Hready Hsized Hpath.
  unfold Main.main, restore_or_fresh. rewrite Hkind. cbn [bind].
  destruct Hpath as [Hfalse|(p & ck & -> & Hp & Hload & [sd Hsd] & [step Hstep])].
  - rewrite Hfalse. cbn [bind].
    destruct (run_ok scheduler_step train_batch c U C W
                (live {| model_state := fresh_model;
                         criterion_state := fresh_criterion kind |}
                   [ {| group_lr := lr c; group_weight_decay := wd c |} ]
                   (if lr_decay c then Some (0 - 1) else None))
                train_data_loader 0 Hready Hsized) as (st & _ & Htrain & _).
    rewrite Htrain. eauto.
  - assert (Ht : truthy (Some p) = true).
    { unfold truthy. apply negb_true_iff, String.eqb_neq, Hp. }
    rewrite Ht. change (default "" (Some p)) with p. rewrite Hload. cbn [bind].
    destruct (restore_ok c
                {| model_state := fresh_model;
                   criterion_state := fresh_criterion kind |}
                [ {| group_lr := lr c; group_weight_decay := wd c |} ]
                ck sd step Hsd Hstep) as (ms' & Hr & _).
    rewrite Hr. cbn [bind].
    destruct (run_ok scheduler_step train_batch c U C W
                (live ms'
                   (reset_lr c [ {| group_lr := lr c;
                                    group_weight_decay := wd c |} ])
                   (if lr_decay c then Some (step - 1) else None))
                train_data_loader step Hready Hsized) as (st & _ & Htrain & _).
    rewrite Htrain. eauto.
Qed.

End MainMore.

(** ** The further properties on concrete runs *)

Lemma train_returns_within_loader_witness :
  exists avg gs,
    Harness.train Harness.c5 0%nat Harness.seven_batches 0 = Ok (avg, gs) /\
    0 <= gs <= 0 + 7 /\
    (gs < 0 + 7 -> gs >= Config.max_train_step Harness.c5).
Proof.
  eexists _, _. split; [vm_compute; reflexivity|].
  destruct (train_returns_within_loader Harness.scheduler_step Harness.train_batch
              Harness.c5 0%nat Harness.seven_batches 0
              3.8864910199999994%float 5) as (Hle & _ & Hearly);
    [vm_compute; reflexivity|].
  split; [exact Hle | exact Hearly].
Defined.


Lemma train_zero_cadence_witness :
  Harness.train Harness.c5_never_save 0%nat [Harness.batch 4 0.25] 0
  = Raise ZeroDivisionError /\
  exists avg,
    Harness.train Harness.c5_never_save 0%nat [Harness.batch 4 0.25] 4
    = Ok (avg, 5).
Proof.
  assert (Hsized : Train.well_sized 2 3 (Harness.batch 4 0.25))
    by (split; reflexivity).
  split.
  - destruct (train_zero_cadence Harness.scheduler_step Harness.train_batch
                Harness.c5_never_save 2 3 4 0%nat (Harness.batch 4 0.25) [] 0
                eq_refl eq_refl eq_refl eq_refl eq_refl Hsized) as [_ Hsave].
    destruct Hsave as [Hraise _]; [discriminate | discriminate | reflexivity |].
    apply Hraise. reflexivity.
  - destruct (train_zero_cadence Harness.scheduler_step Harness.train_batch
                Harness.c5_never_save 2 3 4 0%nat (Harness.batch 4 0.25) [] 4
                eq_refl eq_refl eq_refl eq_refl eq_refl Hsized) as [_ Hsave].
    destruct Hsave as [_ Hreturn]; [discriminate | discriminate | reflexivity |].
    apply Hreturn. discriminate.
Defined.

Lemma train_ignores_batches_past_budget_witness :
  Harness.train Harness.c5 0%nat (Harness.seven_batches ++ [Harness.short_batch]) 0
  = Harness.train Harness.c5 0%nat Harness.seven_batches 0.
Proof.
  destruct (train_ignores_batches_past_budget Harness.scheduler_step
              Harness.train_batch Harness.c5 2 3 4 0%nat Harness.seven_batches
              [Harness.short_batch] 0) as [_ H];
    [harness_ready | harness_sized | vm_compute; lia |].
  exact H.
Defined.

Lemma train_log_cadence_witness :
  exists st,
    Harness.run Harness.c100 0%nat Harness.seven_batches 17 = Ok st /\
    Train.printed_steps st = [20] /\ Train.plotted_steps st = [20].
Proof.
  destruct (train_log_cadence Harness.scheduler_step Harness.train_batch
              Harness.c100 2 3 4 0%nat Harness.seven_batches 17)
    as (st & Hrun & Hpr & Hpl); [harness_ready | harness_sized |].
  exists st. split; [exact Hrun|].
  assert (Hinv : Train.run Harness.scheduler_step Harness.train_batch Harness.c100
                   0%nat Harness.seven_batches 17 = Ok st) by exact Hrun.
  vm_compute in Hinv. injection Hinv as <-. split; reflexivity.
Defined.

Lemma train_without_decay_ignores_scheduler_witness :
  Train.train (fun m => S (S m)) Harness.train_batch Harness.c5 0%nat
    Harness.seven_batches 0
  = Harness.train Harness.c5 0%nat Harness.seven_batches 0.
Proof.
  destruct (train_without_decay_ignores_scheduler Harness.scheduler_step
              Harness.train_batch Harness.c5 (fun m => S (S m)) 0%nat
              Harness.seven_batches 0 eq_refl) as [_ H].
  exact H.
Defined.

Lemma restore_fitting_checkpoint_witness :
  exists ms' groups',
    Main.restore Harness.c5 Harness.fresh_modules Harness.stale_groups
      Harness.stored_fitting = Ok (ms', groups', 1200) /\
    Some (Main.model_state ms') = Main.ck_model Harness.stored_fitting /\
    Some (Main.criterion_state ms') = Main.ck_criterion Harness.stored_fitting.
Proof.
  assert (Hmodel : forall sd, Main.ck_model Harness.stored_fitting = Some sd ->
                              Main.fits Harness.fresh_model sd).
  { intros sd [= <-]. apply strict_check_fits. vm_compute. reflexivity. }
  assert (Hcrit : forall csd,
            Main.ck_criterion Harness.stored_fitting = Some csd ->
            Main.fits (Main.criterion_state Harness.fresh_modules) csd).
  { intros csd [= <-]. apply strict_check_fits. vm_compute. reflexivity. }
  pose proof (restore_fitting_checkpoint Harness.c5 Harness.fresh_modules
                Harness.stale_groups Harness.stored_fitting _ 1200
                eq_refl eq_refl (Hmodel _ eq_refl) Hcrit) as Hr.
  eexists _, _. split; [exact Hr|]. split; reflexivity.
Defined.

Lemma restore_mismatch_skips_criterion_witness :
  exists ms',
    Main.restore Harness.c5 Harness.fresh_modules Harness.stale_groups
      Harness.stored
    = Ok (ms', Main.reset_lr Harness.c5 Harness.stale_groups, 1200) /\
    Main.criterion_state ms' !! "w" = Some (Harness.param [] 10%float).
Proof.
  destruct (restore_mismatch_skips_criterion Harness.c5 Harness.fresh_modules
              Harness.stale_groups Harness.stored Harness.stored_model 1200
              eq_refl eq_refl) as (ms' & Hr & Hcr).
  - intros Hfits. apply strict_check_fits in Hfits.
    vm_compute in Hfits. discriminate.
  - exists ms'. split; [exact Hr|]. rewrite Hcr. reflexivity.
Defined.

Lemma restore_twice_witness :
  exists ms' groups' ms'',
    Main.restore Harness.c5 Harness.fresh_modules Harness.stale_groups
      Harness.stored = Ok (ms', groups', 1200) /\
    Main.restore Harness.c5 ms' groups' Harness.stored = Ok (ms'', groups', 1200) /\
    Main.model_state ms'' = Main.model_state ms'.
Proof.
  exact (restore_twice Harness.c5 Harness.fresh_modules Harness.stale_groups
           Harness.stored Harness.stored_model 1200 eq_refl eq_refl).
Defined.



(** ** A NaN loss *)

Lemma float_of_nan_spec (x : float) : Prim2SF x = S754_nan -> x = nan.
Proof.
  intros H. rewrite <- (SF2Prim_Prim2SF x), H. reflexivity.
Qed.

Lemma mul_nan_r (x : float) : (x * nan)%float = nan.
Proof.
  apply float_of_nan_spec. rewrite FloatAxioms.mul_spec.
  change (Prim2SF nan) with S754_nan.
  destruct (Prim2SF x); reflexivity.
Qed.

Lemma mul_nan_l (x : float) : (nan * x)%float = nan.
Proof.
  apply float_of_nan_spec. rewrite FloatAxioms.mul_spec.
  change (Prim2SF nan) with S754_nan. reflexivity.
Qed.

Lemma add_nan_r (x : float) : (x + nan)%float = nan.
Proof.
  apply float_of_nan_spec. rewrite FloatAxioms.add_spec.
  change (Prim2SF nan) with S754_nan.
  destruct (Prim2SF x); reflexivity.
Qed.

Lemma add_nan_l (x : float) : (nan + x)%float = nan.
Proof.
  apply float_of_nan_spec. rewrite FloatAxioms.add_spec.
  change (Prim2SF nan) with S754_nan. reflexivity.
Qed.

(** line 128 on NaN: NaN is different from 0 and absorbs the sum *)
Lemma smooth_loss_nan (x : float) :
  Train.smooth_loss nan x = nan /\ Train.smooth_loss x nan = nan.
Proof.
  unfold Train.smooth_loss. split.
  - change (nonzero nan) with true. cbv iota.
    rewrite mul_nan_r, add_nan_r. reflexivity.
  - destruct (nonzero x); [|reflexivity].
    rewrite mul_nan_r, add_nan_l. reflexivity.
Qed.

Section NanLoss.
Context {Feature Label Model : Type}.
Variable scheduler_step : Model -> Model.
Variable train_batch :
  Model -> list Feature -> list Label -> Model * float * float.
Variable c : Config.BaseEncoderConfig.
Import Config Train.

Local Abbreviation state := (@Train.state Model).
Local Abbreviation item := (@Train.item Feature Label).
Local Abbreviation train_step := (Train.train_step scheduler_step train_batch c).
Local Abbreviation loop := (Train.loop scheduler_step train_batch c).
Local Abbreviation loss_item := (Train.loss_item scheduler_step train_batch c).

Implicit Types (st : state) (data : item).

Lemma train_step_smooths st data st' stop :
  train_step st data = Ok (st', stop) ->
  exists loss, avg_loss st' = smooth_loss (avg_loss st) loss.
Proof.
  unfold Train.train_step, py_mod, save_best_model.
  destruct (num_utter_per_class c) as [U|]; simpl; [|discriminate].
  destruct (num_classes_in_batch c) as [C|]; simpl; [|discriminate].
  destruct (Regroup.regroup U C (labels data)); simpl; [|discriminate].
  destruct (Regroup.regroup_rows U C (inputs data)); simpl; [|discriminate].
  destruct (train_batch _ _ _) as [[m loss] grad_norm].
  destruct (num_loader_workers c) as [W|]; simpl; [|discriminate].
  destruct (decide (steps_plot_stats c = 0)); simpl; [discriminate|].
  destruct (decide (print_step c = 0)); simpl; [discriminate|].
  destruct (decide (global_step st + 1 >= max_train_step c)); simpl.
  - destruct (PrimFloat.ltb _ _); intros [= <- <-]; simpl; eauto.
  - destruct (decide (save_step c = 0)); simpl; [discriminate|].
    case_bool_decide; [destruct (PrimFloat.ltb _ _)|]; intros [= <- <-];
      simpl; eauto.
Qed.

(** A NaN loss is absorbed for good: the step that observes it sets the
    smoothed loss to NaN, whatever the average was, and from a NaN average
    every further step of the call leaves it NaN, so that the call returns
    NaN as its smoothed loss. *)
Theorem train_nan_loss_persists (U C W : Z) :
  loop_ready c U C W ->
  (forall st data,
     well_sized U C data -> loss_item U C st data = nan ->
     exists st' stop,
       train_step st data = Ok (st', stop) /\ avg_loss st' = nan) /\
  (forall data_loader st st',
     avg_loss st = nan -> loop st data_loader = Ok st' ->
     avg_loss st' = nan /\ fst (returned st') = nan).
Proof.
  intros Hready. split.
  - intros st data Hdata Hnan.
    destruct (train_step_ok scheduler_step train_batch c U C W st data
                Hready Hdata) as (st' & Hstep & _ & _ & Havg & _).
    eexists st', _. split; [exact Hstep|].
    rewrite Havg, Hnan. apply smooth_loss_nan.
  - induction data_loader as [|data rest IH]; intros st st' Hnan Hloop;
      simpl in Hloop.
    + injection Hloop as <-. auto.
    + destruct (train_step st data) as [[st1 stop]|e] eqn:Hstep;
        simpl in Hloop; [|discriminate].
      destruct (train_step_smooths _ _ _ _ Hstep) as [loss Havg].
      rewrite Hnan in Havg.
      rewrite (proj1 (smooth_loss_nan loss)) in Havg.
      destruct stop.
      * injection Hloop as <-. auto.
      * apply (IH st1); assumption.
Qed.
End NanLoss.

Lemma train_nan_loss_persists_witness :
  exists st' stop,
    Train.train_step Harness.scheduler_step Harness.train_batch Harness.c5
      (Train.init 0%nat 0) (Harness.batch nan 0.25) = Ok (st', stop) /\
    Train.avg_loss st' = nan.
Proof.
  assert (Hready : Train.loop_ready Harness.c5 2 3 4) by harness_ready.
  destruct (train_nan_loss_persists Harness.scheduler_step Harness.train_batch
              Harness.c5 2 3 4 Hready) as [Hstep _].
  apply Hstep; [harness_sized | vm_compute; reflexivity].
Defined.
